(** * Shallow embedding of the Bar/QR code detection core

    Models of [src/core/opencv_detector.py] ([OpenCVDetector.detect_codes]),
    [src/utils/performance.py] ([PerformanceMonitor]) and
    [src/core/camera.py] ([CameraManager], [ROISelector]). *)

From Stdlib Require Import ZArith QArith Qminmax List String Ascii Bool Lia Lqa.
Import ListNotations.

(* ------------------------------------------------------------------ *)
(** ** Python helpers *)

Module Py.
Local Open Scope Z_scope.

(** Result of a call that may raise (an exception caught by an
    enclosing [try ... except Exception]). *)
Inductive outcome (A : Type) : Type :=
| Ok (a : A)
| Raised.
Arguments Ok {A} a.
Arguments Raised {A}.

(** [str.isspace] on the ASCII range: space, \t, \n, \v, \f, \r and the
    separators \x1c .. \x1f. *)
Definition is_space (c : ascii) : bool :=
  let n := nat_of_ascii c in
  (n =? 32)%nat || ((9 <=? n) && (n <=? 13))%nat || ((28 <=? n) && (n <=? 31))%nat.

(** [len(s.strip()) > 0]: some character is not white space. *)
Fixpoint strip_nonempty (s : string) : bool :=
  match s with
  | EmptyString => false
  | String c r => negb (is_space c) || strip_nonempty r
  end.

(** Truthiness of a [str]. *)
Definition truthy (s : string) : bool :=
  match s with EmptyString => false | _ => true end.

(** [min] / [max] over a list of ints; [ValueError] on the empty list. *)
Definition min_list (l : list Z) : outcome Z :=
  match l with
  | [] => Raised
  | x :: r => Ok (fold_left Z.min r x)
  end.

Definition max_list (l : list Z) : outcome Z :=
  match l with
  | [] => Raised
  | x :: r => Ok (fold_left Z.max r x)
  end.

(** Normalisation of a slice bound [i] for a sequence of length [n]. *)
Definition slice_bound (n : Z) (i : Z) : Z :=
  if (i <? 0)%Z then Z.max 0 (n + i) else Z.min i n.

(** [l[a:b]] *)
Definition slice {A} (l : list A) (a b : Z) : list A :=
  let n := Z.of_nat (List.length l) in
  let a' := slice_bound n a in
  let b' := slice_bound n b in
  firstn (Z.to_nat (b' - a')) (skipn (Z.to_nat a') l).

End Py.

Import Py.
Open Scope Z_scope.
Open Scope string_scope.
Open Scope list_scope.

(* ------------------------------------------------------------------ *)
(** ** [OpenCVDetector] *)

Module Detector.

Definition Point := (Z * Z)%type.
Definition Rect := (Z * Z * Z * Z)%type.

(** [@dataclass DetectionResult] *)
Record DetectionResult := mkDetectionResult {
  data : string;
  type : string;
  rect : Rect;
  polygon : list Point;
  confidence : Q;
  detection_time : Q
}.

(** An image as a numpy array: a list of rows. *)
Definition Image := list (list Z).

(** [image[y:y+h, x:x+w]] *)
Definition crop (image : Image) (r : Rect) : Image :=
  let '(x, y, w, h) := r in
  map (fun row => Py.slice row x (x + w)) (Py.slice image y (y + h)).

(** What [cv2.QRCodeDetector.detectAndDecode] returns: the payload (empty
    when nothing was decoded) and [points[0]] (absent when [points is None]),
    the points already converted by [int]. *)
Record QRSingle := mkQRSingle {
  qs_data : string;
  qs_points : option (list Point)
}.

(** What [detectAndDecodeMulti] returns: [success], [decoded_info],
    [points_array]. *)
Record QRMulti := mkQRMulti {
  qm_success : bool;
  qm_decoded_info : list string;
  qm_points_array : list (list Point)
}.

(** One [pyzbar] [Decoded] symbol; [b_data] is [barcode.data.decode("utf-8")],
    absent when the bytes are not valid UTF-8 (the decode raises). *)
Record Barcode := mkBarcode {
  b_data : option string;
  b_type : string;
  b_rect : Rect;
  b_polygon : list Point
}.

(** The detector's state. *)
Record OpenCVDetector := mkOpenCVDetector {
  detection_history : list DetectionResult
}.

(** State threaded through the body of [detect_codes]: the [results] list
    (mutated in place, so appends survive an exception) and the number of
    [time.time()] readings taken so far. *)
Record DState := mkDState {
  results : list DetectionResult;
  ticks : nat
}.

(** A small state/exception monad for the two [try] blocks. *)
Definition M (A : Type) := DState -> option A * DState.

Definition ret {A} (a : A) : M A := fun s => (Some a, s).
Definition bind {A B} (m : M A) (k : A -> M B) : M B :=
  fun s => match m s with
           | (Some a, s') => k a s'
           | (None, s') => (None, s')
           end.
Definition raise {A} : M A := fun s => (None, s).
Definition lift {A} (o : outcome A) : M A :=
  match o with Ok a => ret a | Raised => raise end.
Definition get_results : M (list DetectionResult) := fun s => (Some (results s), s).
Definition append (r : DetectionResult) : M unit :=
  fun s => (Some tt, mkDState (results s ++ [r]) (ticks s)).

(** [try: body except ...: pass] *)
Definition try_ (m : M unit) (s : DState) : DState := snd (m s).

Notation "x <- m ;; k" := (bind m (fun x => k))
  (at level 61, m at next level, right associativity).
Notation "m ;;; k" := (bind m (fun _ => k))
  (at level 61, right associativity).

Section DetectCodes.

(** The wall clock: the [n]-th reading of [time.time()] in the call. *)
Variable clock : nat -> Q.

(** The back-ends, applied to the (possibly cropped) image. *)
Variable detectAndDecode : Image -> outcome QRSingle.
Variable detectAndDecodeMulti : Image -> outcome QRMulti.
(** [pyzbar.decode]; [Raised] also stands for the [ImportError] case. *)
Variable pyzbar_decode : Image -> outcome (list Barcode).

Definition now : M Q :=
  fun s => (Some (clock (ticks s)), mkDState (results s) (S (ticks s))).

(** [any(r.data == d for r in results)] *)
Definition already_found (d : string) (rs : list DetectionResult) : bool :=
  existsb (fun r => String.eqb (data r) d) rs.

(** [[(int(p[0]) + roi_offset[0], int(p[1]) + roi_offset[1]) for p in pts]] *)
Definition offset_polygon (off : Point) (pts : list Point) : list Point :=
  map (fun p => (fst p + fst off, snd p + snd off)) pts.

(** [x = min(...); y = min(...); w = max(...) - x; h = max(...) - y] *)
Definition bounding_rect (polygon : list Point) : M Rect :=
  x <- lift (min_list (map fst polygon)) ;;
  y <- lift (min_list (map snd polygon)) ;;
  mx <- lift (max_list (map fst polygon)) ;;
  my <- lift (max_list (map snd polygon)) ;;
  ret (x, y, mx - x, my - y).

Definition qr_result (start : Q) (off : Point) (d : string) (pts : list Point)
  : M unit :=
  let polygon := offset_polygon off pts in
  r <- bounding_rect polygon ;;
  t <- now ;;
  append (mkDetectionResult d "QRCODE" r polygon (9 # 10) (t - start)).

(** The [for i, (data, points) in enumerate(zip(...))] loop. *)
Fixpoint multi_loop (start : Q) (off : Point) (l : list (string * list Point))
  : M unit :=
  match l with
  | [] => ret tt
  | (d, pts) :: rest =>
      (if truthy d && strip_nonempty d then
         rs <- get_results ;;
         if already_found d rs then ret tt
         else qr_result start off d pts
       else ret tt) ;;;
      multi_loop start off rest
  end.

(** [if data and points is not None: ... results.append(result)] *)
Definition qr_single (start : Q) (off : Point) (q : QRSingle) : M unit :=
  if truthy (qs_data q) then
    match qs_points q with
    | Some pts => qr_result start off (qs_data q) pts
    | None => ret tt
    end
  else ret tt.

(** First [try] block: OpenCV single and multi QR decoding. *)
Definition qr_block (start : Q) (off : Point) (image : Image) : M unit :=
  q <- lift (detectAndDecode image) ;;
  qr_single start off q ;;;
  m <- lift (detectAndDecodeMulti image) ;;
  if qm_success m
  then multi_loop start off (combine (qm_decoded_info m) (qm_points_array m))
  else ret tt.

(** [polygon = [...] if barcode.polygon else [corners of rect]] *)
Definition barcode_polygon (b : Barcode) : list Point :=
  let '(x, y, w, h) := b_rect b in
  match b_polygon b with
  | [] => [(x, y); (x + w, y); (x + w, y + h); (x, y + h)]
  | ps => ps
  end.

Fixpoint barcode_loop (start : Q) (bs : list Barcode) : M unit :=
  match bs with
  | [] => ret tt
  | b :: rest =>
      d <- lift (match b_data b with Some d => Ok d | None => Raised end) ;;
      let polygon := barcode_polygon b in
      t <- now ;;
      rs <- get_results ;;
      (if already_found d rs then ret tt
       else append (mkDetectionResult d (b_type b) (b_rect b) polygon
                      (9 # 10) (t - start))) ;;;
      barcode_loop start rest
  end.

(** Second [try] block: [pyzbar] barcode decoding. *)
Definition barcode_block (start : Q) (image : Image) : M unit :=
  bs <- lift (pyzbar_decode image) ;;
  barcode_loop start bs.

(** [OpenCVDetector.detect_codes(image, roi)]: the batch and the detector
    with its history extended. *)
Definition detect_codes (self : OpenCVDetector) (image : Image)
    (roi : option Rect) : list DetectionResult * OpenCVDetector :=
  let start_time := clock 0 in
  let '(image', roi_offset) :=
    match roi with
    | Some r => let '(x, y, _, _) := r in (crop image r, (x, y))
    | None => (image, (0, 0))
    end in
  let s0 := mkDState [] 1 in
  let s1 := try_ (qr_block start_time roi_offset image') s0 in
  let s2 := try_ (barcode_block start_time image') s1 in
  (results s2,
   mkOpenCVDetector (detection_history self ++ results s2)).

End DetectCodes.

(** Payload-uniqueness of a results list. *)
Definition unique_payloads (rs : list DetectionResult) : Prop :=
  NoDup (map data rs).

(** The shape of a step that appends at most one result, with payload [d]. *)
Definition adds_at_most (d : string) (before after : list DetectionResult) :=
  after = before \/ exists r, data r = d /\ after = before ++ [r].

End Detector.

(* ------------------------------------------------------------------ *)
(** ** Concrete detector inputs *)

Module DetectorScenarios.
Import Detector.

(** A clock ticking one second per reading. *)
Definition unit_clock (n : nat) : Q := inject_Z (Z.of_nat n).

(** A 50x50 black frame. *)
Definition frame50 : Image := repeat (repeat 0 50) 50.

Definition qr_square : list Point := [(1, 1); (5, 1); (5, 5); (1, 5)].

(** One payload, "hello", seen by all three back-ends. *)
Definition hello_single (_ : Image) : outcome QRSingle :=
  Ok (mkQRSingle "hello" (Some qr_square)).
Definition hello_multi (_ : Image) : outcome QRMulti :=
  Ok (mkQRMulti true ["hello"] [qr_square]).
Definition hello_pyzbar (_ : Image) : outcome (list Barcode) :=
  Ok [mkBarcode (Some "hello") "QRCODE" (1, 1, 4, 4) qr_square].

(** No QR code; one linear barcode found by pyzbar at (5,5,10,10) of the
    image it is given, with no polygon. *)
Definition no_single (_ : Image) : outcome QRSingle :=
  Ok (mkQRSingle EmptyString None).
Definition no_multi (_ : Image) : outcome QRMulti :=
  Ok (mkQRMulti false [] []).
Definition ean_pyzbar (_ : Image) : outcome (list Barcode) :=
  Ok [mkBarcode (Some "12345") "CODE128" (5, 5, 10, 10) []].
Definition no_pyzbar (_ : Image) : outcome (list Barcode) := Ok [].

(** Back-ends that raise. *)
Definition raising_single (_ : Image) : outcome QRSingle := Raised.
Definition raising_pyzbar (_ : Image) : outcome (list Barcode) := Raised.

(** The region used for the restricted decode. *)
Definition roi_10_20 : Rect := (10, 20, 30, 30).

Definition fresh_detector : OpenCVDetector := mkOpenCVDetector [].

End DetectorScenarios.

(* ------------------------------------------------------------------ *)
(** ** [PerformanceMonitor] *)

Module Performance.
Local Set Warnings "-register-all".

(** The monitor's fields; [locked] is the state of [self.lock], a
    non-reentrant [threading.Lock]. *)
Record PerformanceMonitor := mkPerformanceMonitor {
  start_time : Q;
  frame_times : list Q;
  last_frame_time : Q;
  frame_count : Z;
  detection_count : Z;
  monitoring : bool;
  locked : bool
}.

Definition set_locked (b : bool) (s : PerformanceMonitor) : PerformanceMonitor :=
  mkPerformanceMonitor (start_time s) (frame_times s) (last_frame_time s)
    (frame_count s) (detection_count s) (monitoring s) b.

(** Outcome of a method called by the one thread that uses the monitor:
    it returns a value and the new state, or it blocks forever on
    [self.lock] (no other thread holds the lock to release it). *)
Inductive run (A : Type) : Type :=
| Returned (a : A) (s : PerformanceMonitor)
| Deadlocked.
Arguments Returned {A} a s.
Arguments Deadlocked {A}.

(** [with self.lock: body] *)
Definition with_lock {A} (body : PerformanceMonitor -> run A)
    (s : PerformanceMonitor) : run A :=
  if locked s then Deadlocked
  else match body (set_locked true s) with
       | Returned a s' => Returned a (set_locked false s')
       | Deadlocked => Deadlocked
       end.

(** [PerformanceMonitor()], with [time.time()] reading [t]. *)
Definition init (t : Q) : PerformanceMonitor :=
  mkPerformanceMonitor t [] t 0 0 false false.

Definition start_monitoring (s : PerformanceMonitor) : PerformanceMonitor :=
  mkPerformanceMonitor (start_time s) (frame_times s) (last_frame_time s)
    (frame_count s) (detection_count s) true (locked s).

Definition stop_monitoring (s : PerformanceMonitor) : PerformanceMonitor :=
  mkPerformanceMonitor (start_time s) (frame_times s) (last_frame_time s)
    (frame_count s) (detection_count s) false (locked s).

(** [update_fps], with [time.time()] reading [current_time]. *)
Definition update_fps (current_time : Q) (s : PerformanceMonitor) : run unit :=
  match with_lock (fun s =>
          let ft := frame_times s ++ [current_time] in
          let ft' := if (60 <? List.length ft)%nat
                     then Py.slice ft (-60) (Z.of_nat (List.length ft))
                     else ft in
          Returned tt
            (mkPerformanceMonitor (start_time s) ft' (last_frame_time s)
               (frame_count s + 1) (detection_count s) (monitoring s)
               (locked s))) s with
  | Returned _ s' =>
      Returned tt
        (mkPerformanceMonitor (start_time s') (frame_times s') current_time
           (frame_count s') (detection_count s') (monitoring s') (locked s'))
  | Deadlocked => Deadlocked
  end.

Definition record_detection_time (detection_time : Q) (s : PerformanceMonitor)
  : run unit :=
  with_lock (fun s =>
    Returned tt
      (mkPerformanceMonitor (start_time s) (frame_times s) (last_frame_time s)
         (frame_count s) (detection_count s + 1) (monitoring s) (locked s))) s.

(** The body of [get_current_fps] under the lock. *)
Definition current_fps_body (frame_times : list Q) : Q :=
  if (List.length frame_times <? 2)%nat then 0%Q
  else
    let time_span := (last frame_times 0 - hd 0 frame_times)%Q in
    if Qle_bool time_span 0 then 0%Q
    else (inject_Z (Z.of_nat (List.length frame_times) - 1) / time_span)%Q.

Definition get_current_fps (s : PerformanceMonitor) : run Q :=
  with_lock (fun s => Returned (current_fps_body (frame_times s)) s) s.

(** Python values of the summary dictionaries. *)
Inductive PyValue : Type :=
| PyFloat (q : Q)
| PyInt (z : Z)
| PyDict (kv : list (string * PyValue)).

(** [d[k]] on a dictionary; [None] for a missing key or a non-dict. *)
Definition py_get (v : PyValue) (k : string) : option PyValue :=
  match v with
  | PyDict kv =>
      match find (fun p => String.eqb (fst p) k) kv with
      | Some (_, x) => Some x
      | None => None
      end
  | _ => None
  end.

Definition py_keys (v : PyValue) : list string :=
  match v with PyDict kv => map fst kv | _ => [] end.

(** [summary = {'fps': {'current': fps},
                 'detection': {'total_detections': self.detection_count}}] *)
Definition summary (fps : Q) (s : PerformanceMonitor) : PyValue :=
  PyDict [("fps", PyDict [("current", PyFloat fps)]);
          ("detection",
            PyDict [("total_detections", PyInt (detection_count s))])].

Definition get_performance_summary (s : PerformanceMonitor) : run PyValue :=
  with_lock (fun s =>
    match get_current_fps s with
    | Returned fps s' => Returned (summary fps s') s'
    | Deadlocked => Deadlocked
    end) s.

Definition get_current_metrics := get_performance_summary.

(** [reset_stats], with [time.time()] reading [t]. *)
Definition reset_stats (t : Q) (s : PerformanceMonitor) : run unit :=
  with_lock (fun s =>
    Returned tt
      (mkPerformanceMonitor t [] (last_frame_time s) 0 0 (monitoring s)
         (locked s))) s.

(** Successive [update_fps] calls at the given clock readings. *)
Fixpoint update_fps_all (ts : list Q) (s : PerformanceMonitor) : run unit :=
  match ts with
  | [] => Returned tt s
  | t :: rest =>
      match update_fps t s with
      | Returned _ s' => update_fps_all rest s'
      | Deadlocked => Deadlocked
      end
  end.

(** Sixty frames at a fixed spacing of 0.1 s, from t = 0. *)
Definition tenth_spaced_60 : list Q :=
  map (fun k => Z.of_nat k # 10) (seq 0 60).

(** [d[k1][k2]] *)
Definition py_get2 (v : PyValue) (k1 k2 : string) : option PyValue :=
  match py_get v k1 with Some d => py_get d k2 | None => None end.

Definition set_frame_count (fc : Z) (s : PerformanceMonitor) :=
  mkPerformanceMonitor (start_time s) (frame_times s) (last_frame_time s)
    fc (detection_count s) (monitoring s) (locked s).

End Performance.

(* ------------------------------------------------------------------ *)
(** ** [CameraManager] *)

Module Camera.

(** A [cv2.VideoCapture] object: the device index it was built for and
    whether it is open ([isOpened()]). *)
Record VideoCapture := mkVideoCapture {
  vc_index : Z;
  vc_opened : bool
}.

(** [cap.release()] *)
Definition release (h : VideoCapture) : VideoCapture :=
  mkVideoCapture (vc_index h) false.

(** The machine's devices: [cv2.VideoCapture(i)] raises when
    [ctor_raises i], is open afterwards when [can_open i], and its first
    [read()] returns [ret = True] when [test_read_ok i].  [cap.set(...)]
    is best effort and changes nothing observable here. *)
Record Devices := mkDevices {
  ctor_raises : Z -> bool;
  can_open : Z -> bool;
  test_read_ok : Z -> bool
}.

(** A frame callback, identified by a tag. *)
Definition Callback := nat.

(** The fields of [CameraManager] that [initialize_camera] and
    [start_capture] touch ([frame_queue] and [fps_counter] are left out). *)
Record CameraManager := mkCameraManager {
  camera_index : Z;
  cap : option VideoCapture;
  is_running : bool;
  capture_thread : option unit;
  frame_callback : option Callback;
  frame_width : Z;
  frame_height : Z;
  target_fps : Z
}.

(** [CameraManager(camera_index)] *)
Definition new (camera_index : Z) : CameraManager :=
  mkCameraManager camera_index None false None None 640 480 30.

Definition set_cap (c : option VideoCapture) (s : CameraManager) :=
  mkCameraManager (camera_index s) c (is_running s) (capture_thread s)
    (frame_callback s) (frame_width s) (frame_height s) (target_fps s).

(** [self.cap and self.cap.isOpened()] *)
Definition cap_opened (s : CameraManager) : bool :=
  match cap s with Some h => vc_opened h | None => false end.

(** [initialize_camera]: the boolean result and the new state. *)
Definition initialize_camera (d : Devices) (s : CameraManager)
  : bool * CameraManager :=
  let i := camera_index s in
  if ctor_raises d i then (false, s)
  else
    let h := mkVideoCapture i (can_open d i) in
    let s1 := set_cap (Some h) s in
    if negb (vc_opened h) then (false, s1)
    else if test_read_ok d i then (true, s1)
    else (false, set_cap (Some (release h)) s1).

(** Result of a method that may raise to its caller; the state at the
    point of the [raise] is kept, as Python keeps the mutations. *)
Inductive result (A : Type) : Type :=
| Normal (a : A)
| RuntimeError (msg : string) (s : CameraManager).
Arguments Normal {A} a.
Arguments RuntimeError {A} msg s.

(** [self.frame_callback = cb; self.is_running = True; thread.start()] *)
Definition start (cb : option Callback) (s : CameraManager) : CameraManager :=
  mkCameraManager (camera_index s) (cap s) true (Some tt) cb
    (frame_width s) (frame_height s) (target_fps s).

Definition start_capture (d : Devices) (cb : option Callback)
    (s : CameraManager) : result CameraManager :=
  if negb (cap_opened s) then
    let '(ok, s1) := initialize_camera d s in
    if ok then Normal (start cb s1)
    else RuntimeError "Failed to initialize camera" s1
  else Normal (start cb s).

(** [is_camera_active] *)
Definition is_camera_active (s : CameraManager) : bool :=
  is_running s && cap_opened s.

(** One iteration of [_capture_loop] as the environment drives it:
    whether [self.is_running] is still set when the loop tests it, whether
    [self.cap.read()] succeeds, and whether the callback raises. *)
Record Iteration := mkIteration {
  still_running : bool;
  read_ok : bool;
  callback_raises : bool
}.

Inductive LoopExit :=
| StoppedByFlag
| ReadFailed
| StillRunning.

(** [frame_queue] ([Queue(maxsize=2)]): full -> [get_nowait()], then
    [put_nowait(frame)]. *)
Definition queue_put (q : list nat) (frame : nat) : list nat :=
  (if (2 <=? List.length q)%nat then tl q else q) ++ [frame].

(** [_capture_loop] over the given iterations; frames are numbered by the
    iteration that read them.  Returns how the loop ended, the queue, and
    the number of frames delivered to the callback. *)
Fixpoint capture_loop (its : list Iteration) (n : nat) (q : list nat)
    (delivered : nat) : LoopExit * list nat * nat :=
  match its with
  | [] => (StillRunning, q, delivered)
  | it :: rest =>
      if negb (still_running it) then (StoppedByFlag, q, delivered)
      else if negb (read_ok it) then (ReadFailed, q, delivered)
      else
        (* the callback's exception is caught and printed *)
        capture_loop rest (S n) (queue_put q n) (S delivered)
  end.

(** No device at any index. *)
Definition no_devices : Devices :=
  mkDevices (fun _ => false) (fun _ => false) (fun _ => false).

(** Device 0 opens but its first read fails. *)
Definition dead_device0 : Devices :=
  mkDevices (fun _ => false) (fun i => (i =? 0)%Z) (fun _ => false).

End Camera.

(* ------------------------------------------------------------------ *)
(** ** [ROISelector] *)

Module ROI.

Definition EVENT_MOUSEMOVE : Z := 0.
Definition EVENT_LBUTTONDOWN : Z := 1.
Definition EVENT_LBUTTONUP : Z := 4.

Record ROISelector := mkROISelector {
  start_point : option (Z * Z);
  end_point : option (Z * Z);
  selecting : bool;
  roi : option (Z * Z * Z * Z)
}.

(** [ROISelector()] *)
Definition init : ROISelector := mkROISelector None None false None.

(** [mouse_callback(event, x, y, flags, param)]; a point tuple is always
    truthy, so [if self.start_point and self.end_point] tests presence. *)
Definition mouse_callback (event x y flags : Z) (s : ROISelector) : ROISelector :=
  if (event =? EVENT_LBUTTONDOWN)%Z then
    mkROISelector (Some (x, y)) (end_point s) true (roi s)
  else if (event =? EVENT_MOUSEMOVE)%Z && selecting s then
    mkROISelector (start_point s) (Some (x, y)) (selecting s) (roi s)
  else if (event =? EVENT_LBUTTONUP)%Z then
    let end_point := Some (x, y) in
    match start_point s, end_point with
    | Some (x1, y1), Some (x2, y2) =>
        let x := Z.min x1 x2 in
        let y := Z.min y1 y2 in
        let w := Z.abs (x2 - x1) in
        let h := Z.abs (y2 - y1) in
        mkROISelector (start_point s) end_point false (Some (x, y, w, h))
    | _, _ => mkROISelector (start_point s) end_point false (roi s)
    end
  else s.

Definition get_roi (s : ROISelector) := roi s.

(** [reset] *)
Definition reset (s : ROISelector) : ROISelector := init.

(** Pointer moves delivered in order. *)
Fixpoint moves (ps : list (Z * Z)) (flags : Z) (s : ROISelector) : ROISelector :=
  match ps with
  | [] => s
  | (x, y) :: rest => moves rest flags (mouse_callback EVENT_MOUSEMOVE x y flags s)
  end.

(** A drag: button down at [p1], moves through [ps], button up at [p2]. *)
Definition drag (p1 : Z * Z) (ps : list (Z * Z)) (p2 : Z * Z) (flags : Z)
    (s : ROISelector) : ROISelector :=
  mouse_callback EVENT_LBUTTONUP (fst p2) (snd p2) flags
    (moves ps flags (mouse_callback EVENT_LBUTTONDOWN (fst p1) (snd p1) flags s)).

(** States reachable from a fresh selector by mouse events and [reset]. *)
Inductive reachable : ROISelector -> Prop :=
| reach_init : reachable init
| reach_event ev x y flags s :
    reachable s -> reachable (mouse_callback ev x y flags s)
| reach_reset s : reachable s -> reachable (reset s).

End ROI.

(* ------------------------------------------------------------------ *)
(** ** Predicates on detection results *)

Module DetectorSpecs.
Import Detector.

(** The box [(x, y, w, h)] contains every point of [pts]. *)
Definition in_box (r : Rect) (pts : list Point) : Prop :=
  let '(x, y, w, h) := r in
  0 <= w /\ 0 <= h /\
  Forall (fun p => x <= fst p <= x + w /\ y <= snd p <= y + h) pts.

(** A result built by the OpenCV QR path: a non-empty payload, type
    ["QRCODE"], confidence 0.9 and a non-empty polygon inside its rect. *)
Definition from_opencv (r : DetectionResult) : Prop :=
  type r = "QRCODE" /\ truthy (data r) = true /\ confidence r = 9 # 10 /\
  polygon r <> [] /\ in_box (rect r) (polygon r).

(** A result copied from one of the symbols [bs] that pyzbar returned. *)
Definition from_pyzbar (bs : list Barcode) (r : DetectionResult) : Prop :=
  exists b, In b bs /\ b_data b = Some (data r) /\ type r = b_type b /\
    rect r = b_rect b /\ polygon r = barcode_polygon b /\
    confidence r = 9 # 10.

(** Adjacent elements are in order. *)
Fixpoint nondecreasing (l : list Q) : Prop :=
  match l with
  | x :: ((y :: _) as rest) => (x <= y)%Q /\ nondecreasing rest
  | _ => True
  end.

(** The image the back-ends see for a given [roi]. *)
Definition decoded_image (image : Image) (roi : option Rect) : Image :=
  match roi with Some r => crop image r | None => image end.

End DetectorSpecs.

(* ------------------------------------------------------------------ *)
(** ** [OpenCVDetector]: statistics, history and drawing *)

Module DetectorMore.
Import Detector.

(** [np.unique(types)]: the distinct values in increasing order (code point
    order, [String.compare] on ASCII text). *)
Fixpoint insert_sorted (t : string) (u : list string) : list string :=
  match u with
  | [] => [t]
  | k :: r =>
      match String.compare t k with
      | Lt => t :: k :: r
      | Eq => k :: r
      | Gt => k :: insert_sorted t r
      end
  end.

Definition np_unique (xs : list string) : list string :=
  fold_left (fun u t => if existsb (String.eqb t) u then u else insert_sorted t u)
    xs [].

(** [np.unique(types, return_counts=True)] zipped into a dict *)
Definition unique_counts (xs : list string) : list (string * nat) :=
  map (fun k => (k, count_occ string_dec xs k)) (np_unique xs).

(** Strictly increasing in code point order. *)
Fixpoint strictly_sorted (l : list string) : Prop :=
  match l with
  | a :: ((b :: _) as rest) => String.compare a b = Lt /\ strictly_sorted rest
  | _ => True
  end.

(** [np.mean] of a non-empty list. *)
Definition np_mean (l : list Q) : Q :=
  (fold_right Qplus 0 l / inject_Z (Z.of_nat (List.length l)))%Q.

(** [get_detection_statistics] *)
Definition get_detection_statistics (self : OpenCVDetector) : Performance.PyValue :=
  match detection_history self with
  | [] => Performance.PyDict [("total_detections", Performance.PyInt 0)]
  | r0 :: rest =>
      let h := r0 :: rest in
      let types := map type h in
      let confidences := map confidence h in
      let times := map detection_time h in
      Performance.PyDict
        [("total_detections", Performance.PyInt (Z.of_nat (List.length h)));
         ("code_types",
           Performance.PyDict
             (map (fun p => (fst p, Performance.PyInt (Z.of_nat (snd p))))
                (unique_counts types)));
         ("average_confidence", Performance.PyFloat (np_mean confidences));
         ("average_detection_time", Performance.PyFloat (np_mean times));
         ("max_detection_time",
           Performance.PyFloat (fold_left Qmax (map detection_time rest)
                                  (detection_time r0)));
         ("min_detection_time",
           Performance.PyFloat (fold_left Qmin (map detection_time rest)
                                  (detection_time r0)))]
  end.

(** [clear_history] *)
Definition clear_history (self : OpenCVDetector) : OpenCVDetector :=
  mkOpenCVDetector [].

(** Detectors a program can build: a fresh one, then [detect_codes] calls
    (with any clock, back-ends, frame and region) and [clear_history]. *)
Inductive detector_run : OpenCVDetector -> Prop :=
| run_fresh : detector_run (mkOpenCVDetector [])
| run_detect clock dAD dADM pz image roi self :
    detector_run self ->
    detector_run (snd (detect_codes clock dAD dADM pz self image roi))
| run_clear self : detector_run self -> detector_run (clear_history self).

(** Drawing calls made on the frame, in order. *)
Definition Color := (Z * Z * Z)%type.

Inductive DrawOp :=
| Polylines (pts : list Point) (closed : bool) (color : Color) (thickness : Z)
| Rectangle (p1 p2 : Point) (color : Color) (thickness : Z)
| PutText (text : string) (org : Point) (color : Color) (thickness : Z).

Section Draw.

(** [cv2.getTextSize(line, FONT_HERSHEY_SIMPLEX, 0.8, 2)[0][0]] *)
Variable text_width : string -> Z.
(** [f"{c:.1%}"] *)
Variable format_percent : Q -> string.

(** [result.data if len(result.data) <= 80 else result.data[:77] + "..."] *)
Definition data_display (d : string) : string :=
  if (String.length d <=? 80)%nat then d else (substring 0 77 d ++ "...")%string.

Definition label_lines (r : DetectionResult) : list string :=
  [("Type: " ++ type r)%string; ("Confidence: " ++ format_percent (confidence r))%string;
   "Content:"; data_display (data r)].

Definition colors : list Color :=
  [(255, 255, 0); (0, 255, 255); (255, 255, 255); (0, 255, 0)].

(** The body of the [for result in results] loop of [draw_detections]. *)
Definition draw_result (r : DetectionResult) : list DrawOp :=
  let '(x, y, w, h) := rect r in
  let lines := label_lines r in
  let widths := map text_width lines in
  let max_width := fold_left Z.max (tl widths) (hd 0 widths) in
  let line_height := 25 in
  let total_height := Z.of_nat (List.length lines) * line_height + 10 in
  let bg_y := if (0 <? y - total_height)%Z then y - total_height else y + h in
  let text_start_y := bg_y + line_height in
  let padding := 10 in
  [Polylines (polygon r) true (0, 255, 0) 3;
   Rectangle (x, y) (x + w, y + h) (255, 0, 0) 3;
   Rectangle (x - padding, bg_y) (x + max_width + padding * 2, bg_y + total_height)
     (0, 0, 0) (-1);
   Rectangle (x - padding, bg_y) (x + max_width + padding * 2, bg_y + total_height)
     (255, 255, 255) 2] ++
  map (fun '(i, (line, color)) =>
         PutText line (x, text_start_y + Z.of_nat i * line_height) color 2)
    (combine (seq 0 (List.length lines)) (combine lines colors)).

(** [draw_detections(image, results)] *)
Definition draw_detections (results : list DetectionResult) : list DrawOp :=
  flat_map draw_result results.

(** [detect_in_video_frame(frame, roi)]: the batch and the drawing calls
    made on the copy of the frame. *)
Definition detect_in_video_frame clock dAD dADM pz (self : OpenCVDetector)
    (frame : Image) (roi : option Rect)
    : (list DetectionResult * list DrawOp) * OpenCVDetector :=
  let '(results, self') := detect_codes clock dAD dADM pz self frame roi in
  ((results, draw_detections results), self').

End Draw.

End DetectorMore.

(* ------------------------------------------------------------------ *)
(** ** [CameraManager]: stopping, probing devices, the frame queue *)

Module CameraMore.
Import Camera.

(** [stop_capture]: [is_running = False]; the join waits for the thread
    (which stays referenced); an existing handle is released and dropped. *)
Definition stop_capture (s : CameraManager) : CameraManager :=
  mkCameraManager (camera_index s) None false (capture_thread s) (frame_callback s)
    (frame_width s) (frame_height s) (target_fps s).

(** [list_available_cameras]: indices 0 .. 9 whose capture object opens
    and reads one frame; a constructor that raises skips the index. *)
Definition list_available_cameras (d : Devices) : list Z :=
  fold_left (fun acc i =>
      if ctor_raises d i then acc
      else if can_open d i then
        (if test_read_ok d i then acc ++ [i] else acc)
      else acc)
    (map Z.of_nat (seq 0 10)) [].

(** [has_available_cameras] *)
Definition has_available_cameras (d : Devices) : bool :=
  (0 <? List.length (list_available_cameras d))%nat.

(** [get_latest_frame]: [frame_queue.get_nowait()], [None] when empty. *)
Definition get_latest_frame (q : list nat) : option nat * list nat :=
  match q with
  | [] => (None, [])
  | f :: rest => (Some f, rest)
  end.

Definition set_camera_index (i : Z) (s : CameraManager) : CameraManager :=
  mkCameraManager i (cap s) (is_running s) (capture_thread s)
    (frame_callback s) (frame_width s) (frame_height s) (target_fps s).

(** [MainWindow.start_camera] once the index [i] is read off the combo box:
    the new [camera_active] flag and the manager.  The [RuntimeError] of
    [start_capture] is caught by the handler's [except Exception]. *)
Definition start_camera (d : Devices) (i : Z) (cb : Callback)
    (camera_active : bool) (s : CameraManager) : bool * CameraManager :=
  if negb (has_available_cameras d) then (camera_active, s)
  else
    let s1 := set_camera_index i s in
    let '(ok, s2) := initialize_camera d s1 in
    if ok then
      match start_capture d (Some cb) s2 with
      | Normal s3 => (true, s3)
      | RuntimeError _ s3 => (camera_active, s3)
      end
    else (camera_active, s2).

(** [MainWindow.stop_camera] *)
Definition stop_camera (s : CameraManager) : bool * CameraManager :=
  (false, stop_capture s).

End CameraMore.

(* ------------------------------------------------------------------ *)
(** ** [ResultExporter] *)

Module Exporter.
Import Detector.

(** A history entry, a dict: ['data'] is always there, the other keys read
    by [_generate_summary_stats] may be missing. *)
Record Item := mkItem {
  it_data : string;
  it_confidence : option Q;
  it_detection_time : option Q;
  it_source : option string;
  it_type : option string;
  it_timestamp : option string
}.

(** [{'data': d}] *)
Definition data_item (d : string) : Item := mkItem d None None None None None.

(** [add_results(results, source, timestamp)]; [source] and [timestamp]
    are not used. *)
Definition add_results (results : list DetectionResult) (history : list Item)
  : list Item :=
  fold_left (fun h r =>
      if existsb (fun it => String.eqb (it_data it) (data r)) h then h
      else h ++ [data_item (data r)])
    results history.

(** [clear_history] *)
Definition clear_history (history : list Item) : list Item := [].

(** Values of the statistics dictionary. *)
Inductive SVal :=
| SInt (z : Z)
| SStr (s : string).

(** [d[k] = v] on an insertion-ordered dict. *)
Fixpoint dict_set {V} (k : string) (v : V) (d : list (string * V))
  : list (string * V) :=
  match d with
  | [] => [(k, v)]
  | (k', v') :: rest =>
      if String.eqb k' k then (k', v) :: rest else (k', v') :: dict_set k v rest
  end.

(** [d.get(k, default)] *)
Fixpoint dict_get {V} (k : string) (default : V) (d : list (string * V)) : V :=
  match d with
  | [] => default
  | (k', v) :: rest => if String.eqb k' k then v else dict_get k default rest
  end.

(** [set(xs)], in first-seen order. *)
Definition py_set (xs : list string) : list string :=
  fold_left (fun acc x => if existsb (String.eqb x) acc then acc else acc ++ [x])
    xs [].

(** [min] / [max] over non-empty lists of strings. *)
Definition str_min (x : string) (xs : list string) : string :=
  fold_left (fun a b => match String.compare b a with Lt => b | _ => a end) xs x.
Definition str_max (x : string) (xs : list string) : string :=
  fold_left (fun a b => match String.compare b a with Gt => b | _ => a end) xs x.

Section Stats.

(** [f"{v:.3f}"] of a float, seen as its reduced rational. *)
Variable format3 : Q -> string.

Definition generate_summary_stats (data : list Item) : list (string * SVal) :=
  match data with
  | [] => []
  | i0 :: irest =>
      let confidences := map (fun it => match it_confidence it with
                                         | Some c => c | None => 0%Q end) data in
      let detection_times := map (fun it => match it_detection_time it with
                                             | Some t => t | None => 0%Q end) data in
      let sources := map (fun it => match it_source it with
                                     | Some s => s | None => EmptyString end) data in
      let types := map (fun it => match it_type it with
                                   | Some t => t | None => EmptyString end) data in
      let timestamps := map (fun it => match it_timestamp it with
                                        | Some t => t | None => EmptyString end) data in
      let unique_sources := List.length (py_set sources) in
      let unique_types := List.length (py_set types) in
      let n := inject_Z (Z.of_nat (List.length data)) in
      let avg_confidence := Qred (fold_right Qplus 0 confidences / n)%Q in
      let avg_time := Qred (fold_right Qplus 0 detection_times / n)%Q in
      let min_time := Qred (fold_left Qmin (tl detection_times) (hd 0%Q detection_times)) in
      let max_time := Qred (fold_left Qmax (tl detection_times) (hd 0%Q detection_times)) in
      let type_counts :=
        fold_left (fun tc t => dict_set t (dict_get t 0 tc + 1) tc) types [] in
      let most_common_type :=
        match type_counts with
        | [] => "N/A"
        | p :: ps =>
            fst (fold_left (fun best q => if (snd best <? snd q)%Z then q else best) ps p)
        end in
      let valid_timestamps := filter truthy timestamps in
      let date_range :=
        match valid_timestamps with
        | [] => "N/A"
        | t :: ts => (str_min t ts ++ " to " ++ str_max t ts)%string
        end in
      let stats :=
        [("Total Detections", SInt (Z.of_nat (List.length data)));
         ("Unique Sources", SInt (Z.of_nat unique_sources));
         ("Code Types Detected", SInt (Z.of_nat unique_types));
         ("Average Confidence", SStr (format3 avg_confidence));
         ("Average Detection Time", SStr (format3 avg_time ++ "s")%string);
         ("Min Detection Time", SStr (format3 min_time ++ "s")%string);
         ("Max Detection Time", SStr (format3 max_time ++ "s")%string);
         ("Most Common Type", SStr most_common_type);
         ("Date Range", SStr date_range)] in
      fold_left (fun st p => dict_set (fst p ++ " Count")%string (SInt (snd p)) st)
        type_counts stats
  end.

(** [get_statistics] *)
Definition get_statistics (history : list Item) : list (string * SVal) :=
  generate_summary_stats history.

End Stats.

(** Histories a program can build: empty, then [add_results] and
    [clear_history] calls. *)
Inductive exporter_run : list Item -> Prop :=
| exp_init : exporter_run []
| exp_add results h : exporter_run h -> exporter_run (add_results results h)
| exp_clear h : exporter_run h -> exporter_run (clear_history h).

End Exporter.

(* ------------------------------------------------------------------ *)
(** ** Auxiliary notions for the statements *)

Module Aux.

(** The last [k] elements of [l] ([l[-k:]]). *)
Definition lastn {A} (k : nat) (l : list A) : list A :=
  skipn (List.length l - k) l.

(** The state of a monitor call, mapped. *)
Definition run_map {A} (f : Performance.PerformanceMonitor -> Performance.PerformanceMonitor)
    (r : Performance.run A) : Performance.run A :=
  match r with
  | Performance.Returned a s => Performance.Returned a (f s)
  | Performance.Deadlocked => Performance.Deadlocked
  end.

End Aux.

(* ------------------------------------------------------------------ *)
(** ** Properties of [detect_codes] *)

Module DetectorFacts.
Import Detector.

Lemma nodup_snoc {A} (l : list A) (x : A) :
  NoDup l -> ~ In x l -> NoDup (l ++ [x]).
Proof.
  induction l as [|a l IH]; simpl; intros Hnd Hin.
  - constructor; [intros []|constructor].
  - inversion Hnd as [|? ? Ha Hl]; subst.
    constructor.
    + rewrite in_app_iff; simpl; intros [H|[H|[]]]; [contradiction|].
      subst; apply Hin; left; reflexivity.
    + apply IH; [assumption|]. intros H; apply Hin; right; assumption.
Qed.

Lemma already_found_false d rs :
  already_found d rs = false -> ~ In d (map data rs).
Proof.
  unfold already_found; intros H Hin.
  apply in_map_iff in Hin as [r [Hr Hin]].
  assert (Hx : existsb (fun r => String.eqb (data r) d) rs = true).
  { apply existsb_exists; exists r; split; [assumption|].
    apply String.eqb_eq; assumption. }
  congruence.
Qed.

Lemma unique_append rs r :
  unique_payloads rs -> already_found (data r) rs = false ->
  unique_payloads (rs ++ [r]).
Proof.
  unfold unique_payloads; intros Hu Ha.
  rewrite map_app; simpl.
  apply nodup_snoc; [assumption|].
  apply already_found_false; assumption.
Qed.

Section Clock.
Variable clock : nat -> Q.

Lemma qr_result_adds start off d pts s :
  adds_at_most d (results s) (results (snd (qr_result clock start off d pts s))).
Proof.
  unfold qr_result, bounding_rect, bind, lift, ret, raise, append, now.
  destruct (min_list _); [|left; reflexivity].
  destruct (min_list _); [|left; reflexivity].
  destruct (max_list _); [|left; reflexivity].
  destruct (max_list _); [|left; reflexivity].
  right; eexists; split; [|reflexivity]; reflexivity.
Qed.

Lemma adds_unique d before after :
  unique_payloads before -> already_found d before = false ->
  adds_at_most d before after -> unique_payloads after.
Proof.
  intros Hu Ha [->|[r [Hr ->]]]; [assumption|].
  apply unique_append; [assumption|]. rewrite Hr; assumption.
Qed.

Lemma multi_loop_unique start off l s :
  unique_payloads (results s) ->
  unique_payloads (results (snd (multi_loop clock start off l s))).
Proof.
  revert s; induction l as [|[d pts] l IH]; intros s Hu; [exact Hu|].
  simpl; unfold bind at 1.
  destruct (truthy d && strip_nonempty d).
  - unfold bind, get_results at 1.
    destruct (already_found d (results s)) eqn:Ha.
    + apply IH; assumption.
    + pose proof (qr_result_adds start off d pts s) as Hadd.
      destruct (qr_result clock start off d pts s) as [[[]|] s'];
        simpl in Hadd |- *.
      * apply IH; apply (adds_unique d (results s)); assumption.
      * apply (adds_unique d (results s)); assumption.
  - apply IH; assumption.
Qed.

Lemma barcode_loop_unique start bs s :
  unique_payloads (results s) ->
  unique_payloads (results (snd (barcode_loop clock start bs s))).
Proof.
  revert s; induction bs as [|b bs IH]; intros s Hu; [exact Hu|].
  simpl; unfold bind at 1, lift.
  destruct (b_data b) as [d|]; [|exact Hu].
  unfold ret, bind, now, get_results; simpl.
  destruct (already_found d (results s)) eqn:Ha.
  - apply IH; assumption.
  - apply IH; simpl. apply unique_append; assumption.
Qed.

Lemma qr_block_unique dAD dADM start off image :
  unique_payloads
    (results (try_ (qr_block clock dAD dADM start off image) (mkDState [] 1))).
Proof.
  unfold try_, qr_block, bind at 1, lift at 1.
  destruct (dAD image) as [q|]; [|constructor].
  unfold ret, bind at 1.
  assert (H1 : forall s, results s = [] ->
            unique_payloads (results (snd (qr_single clock start off q s)))).
  { intros s Hs; unfold qr_single.
    destruct (truthy (qs_data q)); [|simpl; rewrite Hs; constructor].
    destruct (qs_points q) as [pts|]; [|simpl; rewrite Hs; constructor].
    destruct (qr_result_adds start off (qs_data q) pts s) as [->|[r [_ ->]]];
      rewrite Hs; repeat constructor; intros []. }
  specialize (H1 (mkDState [] 1) eq_refl).
  destruct (qr_single clock start off q (mkDState [] 1)) as [[[]|] s1];
    [|exact H1].
  simpl in H1 |- *.
  unfold bind, lift.
  destruct (dADM image) as [m|]; [|exact H1].
  unfold ret; destruct (qm_success m); [|exact H1].
  apply multi_loop_unique; exact H1.
Qed.

End Clock.
Import DetectorScenarios.

(** C2: every batch returned by [detect_codes] is payload-unique, whatever
    the three back-ends return, and one payload reported by the single-QR,
    multi-QR and pyzbar back-ends yields a batch of size 1. *)
Theorem detect_codes_payload_unique :
  (forall clock dAD dADM pz self image roi,
     NoDup (map data (fst (detect_codes clock dAD dADM pz self image roi)))) /\
  List.length (fst (detect_codes unit_clock hello_single hello_multi
                      hello_pyzbar fresh_detector frame50 None)) = 1%nat.
Proof.
  split; [|vm_compute; reflexivity].
  intros clock dAD dADM pz self image roi.
  unfold detect_codes.
  destruct (match roi with Some r => _ | None => _ end) as [image' off].
  unfold try_ at 1, barcode_block, bind at 1, lift.
  pose proof (qr_block_unique clock dAD dADM (clock 0%nat) off image') as Hq.
  unfold try_ in Hq.
  destruct (pz image') as [bs|]; simpl; [|exact Hq].
  apply barcode_loop_unique; exact Hq.
Qed.

(** C1 (failing input): with region (10,20,30,30), a barcode that pyzbar
    finds at (5,5,10,10) of the cropped image is returned at (5,5,10,10),
    its polygon also in cropped coordinates, not at (15,25,10,10) in the
    full frame; the QR path on the same region does add the offset. *)
Theorem detect_codes_pyzbar_roi_not_offset :
  map (fun r => (rect r, polygon r))
    (fst (detect_codes unit_clock no_single no_multi ean_pyzbar
            fresh_detector frame50 (Some roi_10_20)))
  = [((5, 5, 10, 10), [(5, 5); (15, 5); (15, 15); (5, 15)])] /\
  map rect (fst (detect_codes unit_clock no_single no_multi ean_pyzbar
                   fresh_detector frame50 (Some roi_10_20)))
  <> [(15, 25, 10, 10)] /\
  map rect (fst (detect_codes unit_clock hello_single no_multi no_pyzbar
                   fresh_detector frame50 (Some roi_10_20)))
  = [(11, 21, 4, 4)].
Proof.
  split; [vm_compute; reflexivity|split].
  - vm_compute; congruence.
  - vm_compute; reflexivity.
Qed.

End DetectorFacts.

(* ------------------------------------------------------------------ *)
(** ** Properties of [PerformanceMonitor] *)

Module PerformanceFacts.
Import Performance.

Lemma set_locked_same s : set_locked (locked s) s = s.
Proof. destruct s; reflexivity. Qed.

Lemma slice_last60 (l : list Q) :
  (60 < List.length l)%nat ->
  Py.slice l (-60) (Z.of_nat (List.length l)) = skipn (List.length l - 60) l.
Proof.
  intros Hlen; unfold Py.slice, Py.slice_bound.
  replace ((-60 <? 0)%Z) with true by reflexivity.
  replace ((Z.of_nat (List.length l) <? 0)%Z) with false
    by (symmetry; apply Z.ltb_ge; lia).
  rewrite Z.min_id, Z.max_r by lia.
  replace (Z.of_nat (List.length l) - (Z.of_nat (List.length l) + -60))
    with 60 by lia.
  replace (Z.to_nat (Z.of_nat (List.length l) + -60))
    with (List.length l - 60)%nat by lia.
  apply firstn_all2; rewrite length_skipn; simpl; lia.
Qed.

(** Every call made by the monitor's single user starts with the lock free. *)
Lemma update_fps_unfold t s :
  locked s = false ->
  update_fps t s =
  Returned tt
    (mkPerformanceMonitor (start_time s)
       (let ft := frame_times s ++ [t] in
        if (60 <? List.length ft)%nat
        then Py.slice ft (-60) (Z.of_nat (List.length ft)) else ft)
       t (frame_count s + 1) (detection_count s) (monitoring s) false).
Proof.
  destruct s; simpl; intros ->; reflexivity.
Qed.

(** C8: after each [update_fps] call the window holds at most 60
    timestamps: the new timestamp is appended and only the oldest ones are
    dropped, none while the window has at most 60 entries; [frame_count]
    grows by exactly one, and the lock is free again. *)
Theorem update_fps_window_capped (s : PerformanceMonitor) (t : Q) :
  locked s = false ->
  exists s', update_fps t s = Returned tt s' /\
    (exists dropped, frame_times s ++ [t] = dropped ++ frame_times s' /\
       ((List.length (frame_times s ++ [t]) <= 60)%nat -> dropped = [])) /\
    (List.length (frame_times s') <= 60)%nat /\
    frame_count s' = frame_count s + 1 /\
    locked s' = false.
Proof.
  intros Hl; rewrite (update_fps_unfold t s Hl).
  eexists; split; [reflexivity|]; cbn [frame_times frame_count locked].
  set (ft := frame_times s ++ [t]).
  destruct (60 <? List.length ft)%nat eqn:Hlt.
  - apply Nat.ltb_lt in Hlt.
    rewrite slice_last60 by exact Hlt.
    split; [|split; [|split; reflexivity]].
    + exists (firstn (List.length ft - 60) ft); split.
      * symmetry; apply firstn_skipn.
      * intros; lia.
    + rewrite length_skipn; lia.
  - apply Nat.ltb_ge in Hlt.
    split; [|split; [exact Hlt|split; reflexivity]].
    exists []; split; reflexivity.
Qed.

Lemma update_fps_window_capped_witness :
  exists s', update_fps 1 (init 0) = Returned tt s' /\
    (exists dropped, frame_times (init 0) ++ [1%Q] = dropped ++ frame_times s' /\
       ((List.length (frame_times (init 0) ++ [1%Q]) <= 60)%nat -> dropped = [])) /\
    (List.length (frame_times s') <= 60)%nat /\
    frame_count s' = frame_count (init 0) + 1 /\
    locked s' = false.
Proof. apply (update_fps_window_capped (init 0) 1); reflexivity. Defined.

(** C7: [get_current_fps] returns 0 for fewer than two samples and
    (count - 1) / (newest - oldest) when there are at least two samples and
    newest > oldest; sixty frames at 0.1 s spacing give exactly 10. *)
Theorem get_current_fps_windowed_rate :
  (forall s : PerformanceMonitor, locked s = false ->
   exists v, get_current_fps s = Returned v s /\
     ((List.length (frame_times s) < 2)%nat -> v = 0%Q) /\
     ((2 <= List.length (frame_times s))%nat ->
      (hd 0 (frame_times s) < last (frame_times s) 0)%Q ->
      v = (inject_Z (Z.of_nat (List.length (frame_times s)) - 1) /
           (last (frame_times s) 0 - hd 0 (frame_times s)))%Q)) /\
  (match update_fps_all tenth_spaced_60 (init 0) with
   | Returned _ s =>
       match get_current_fps s with
       | Returned v _ => (v == 10)%Q
       | Deadlocked => False
       end
   | Deadlocked => False
   end).
Proof.
  split; [|vm_compute; reflexivity].
  intros [st ft lt fc dc mo lk] Hl; cbn in Hl; subst lk.
  unfold get_current_fps, with_lock; cbn [locked set_locked frame_times].
  eexists; split; [reflexivity|]; unfold current_fps_body; split.
  - intros Hlt; apply Nat.ltb_lt in Hlt; rewrite Hlt; reflexivity.
  - intros Hge Hnew; apply Nat.ltb_ge in Hge; rewrite Hge.
    destruct (Qle_bool (last ft 0 - hd 0 ft)%Q 0%Q) eqn:Hle; [|reflexivity].
    apply Qle_bool_iff in Hle; lra.
Qed.

Lemma get_current_fps_windowed_rate_witness :
  exists v, get_current_fps (init 0) = Returned v (init 0) /\
    ((List.length (frame_times (init 0)) < 2)%nat -> v = 0%Q) /\
    ((2 <= List.length (frame_times (init 0)))%nat ->
     (hd 0 (frame_times (init 0)) < last (frame_times (init 0)) 0)%Q ->
     v = (inject_Z (Z.of_nat (List.length (frame_times (init 0))) - 1) /
          (last (frame_times (init 0)) 0 - hd 0 (frame_times (init 0))))%Q).
Proof.
  destruct get_current_fps_windowed_rate as [H _].
  apply (H (init 0)); reflexivity.
Defined.

(** C9: [reset_stats] empties the window, zeroes both counters and leaves
    the [monitoring] flag as it was. *)
Theorem reset_stats_clears (s : PerformanceMonitor) (t : Q) :
  locked s = false ->
  exists s', reset_stats t s = Returned tt s' /\
    frame_times s' = [] /\ frame_count s' = 0 /\ detection_count s' = 0 /\
    monitoring s' = monitoring s /\ locked s' = false.
Proof.
  destruct s as [st ft lt fc dc mo lk]; cbn; intros ->.
  eexists; split; [reflexivity|]; repeat split.
Qed.

Lemma reset_stats_clears_witness :
  exists s', reset_stats 2 (start_monitoring (init 0)) = Returned tt s' /\
    frame_times s' = [] /\ frame_count s' = 0 /\ detection_count s' = 0 /\
    monitoring s' = monitoring (start_monitoring (init 0)) /\ locked s' = false.
Proof. apply (reset_stats_clears (start_monitoring (init 0)) 2); reflexivity. Defined.

(** [get_performance_summary] holds the non-reentrant lock while it calls
    [get_current_fps], which waits for the same lock. *)
Lemma get_performance_summary_blocks (s : PerformanceMonitor) :
  get_performance_summary s = Deadlocked.
Proof.
  destruct s as [st ft lt fc dc mo []]; reflexivity.
Qed.

(** C3 (code bug): for every state in which its caller can make the call
    (the lock free), [get_performance_summary] never returns: it takes the
    non-reentrant lock and then calls [get_current_fps], which waits for
    that same lock. On its own, in the same state, [get_current_fps]
    returns the windowed rate; and the same body with that rate computed
    in place, without taking the lock again, returns the summary and frees
    the lock. *)
Theorem get_performance_summary_deadlocks (s : PerformanceMonitor) :
  locked s = false ->
  get_performance_summary s = Deadlocked /\
  get_current_fps s = Returned (current_fps_body (frame_times s)) s /\
  with_lock (fun s' => Returned (summary (current_fps_body (frame_times s')) s') s') s
    = Returned (summary (current_fps_body (frame_times s)) s) s.
Proof.
  intros Hl. split; [apply get_performance_summary_blocks|].
  destruct s as [st ft lt fc dc mo lk]; cbn in Hl; subst lk.
  split; reflexivity.
Qed.

Lemma get_performance_summary_deadlocks_witness :
  let s := match update_fps_all [1; 2; 3]%Q (init 0) with
           | Returned _ s => s | Deadlocked => init 0 end in
  locked s = false /\
  get_performance_summary s = Deadlocked /\
  get_current_fps s = Returned (current_fps_body (frame_times s)) s /\
  with_lock (fun s' => Returned (summary (current_fps_body (frame_times s')) s') s') s
    = Returned (summary (current_fps_body (frame_times s)) s) s.
Proof.
  intros s.
  assert (H : locked s = false) by reflexivity.
  split; [exact H|exact (get_performance_summary_deadlocks s H)].
Defined.

End PerformanceFacts.

(* ------------------------------------------------------------------ *)
(** ** Properties of [CameraManager] *)

Module CameraFacts.
Import Camera.

(** C4 (failing input): on a fresh [CameraManager(-1)] with no device, and
    on [CameraManager(0)] whose device opens but fails its test read,
    [initialize_camera] returns [False] and the device is not open, but
    [self.cap] still holds the [VideoCapture] object (it is not reset to
    [None] as [stop_capture] does). *)
Theorem initialize_camera_keeps_handle :
  initialize_camera no_devices (new (-1))
    = (false, set_cap (Some (mkVideoCapture (-1) false)) (new (-1))) /\
  initialize_camera dead_device0 (new 0)
    = (false, set_cap (Some (release (mkVideoCapture 0 true))) (new 0)) /\
  cap (snd (initialize_camera no_devices (new (-1)))) <> None /\
  cap (snd (initialize_camera dead_device0 (new 0))) <> None /\
  cap_opened (snd (initialize_camera no_devices (new (-1)))) = false /\
  cap_opened (snd (initialize_camera dead_device0 (new 0))) = false.
Proof.
  repeat split; cbn; try discriminate.
Qed.




End CameraFacts.

(* ------------------------------------------------------------------ *)
(** ** Properties of [ROISelector] *)

Module ROIFacts.
Import ROI.

Lemma moves_start_point ps flags s :
  start_point (moves ps flags s) = start_point s.
Proof.
  revert s; induction ps as [|[x y] ps IH]; intros s; [reflexivity|].
  cbn; rewrite IH; unfold mouse_callback; cbn.
  destruct (selecting s); reflexivity.
Qed.

(** C6: a drag from [(x1,y1)] to [(x2,y2)], through any pointer moves,
    commits [(min x1 x2, min y1 y2, |x2-x1|, |y2-y1|)], whose width and
    height are non-negative and which does not depend on which endpoint
    was the anchor; (50,50) -> (10,10) and (10,10) -> (50,50) both commit
    (10,10,40,40). *)
Theorem drag_commits_normalised_region :
  (forall x1 y1 x2 y2 ps flags s,
     roi (drag (x1, y1) ps (x2, y2) flags s)
       = Some (Z.min x1 x2, Z.min y1 y2, Z.abs (x2 - x1), Z.abs (y2 - y1)) /\
     0 <= Z.abs (x2 - x1) /\ 0 <= Z.abs (y2 - y1) /\
     roi (drag (x1, y1) ps (x2, y2) flags s)
       = roi (drag (x2, y2) ps (x1, y1) flags s)) /\
  roi (drag (50, 50) [(30, 30)] (10, 10) 0 init) = Some (10, 10, 40, 40) /\
  roi (drag (10, 10) [(30, 30)] (50, 50) 0 init) = Some (10, 10, 40, 40).
Proof.
  split; [|split; reflexivity].
  assert (Hroi : forall x1 y1 x2 y2 ps flags s,
     roi (drag (x1, y1) ps (x2, y2) flags s)
       = Some (Z.min x1 x2, Z.min y1 y2, Z.abs (x2 - x1), Z.abs (y2 - y1))).
  { intros x1 y1 x2 y2 ps flags s; unfold drag.
    cbn [fst snd].
    set (s1 := moves ps flags _).
    assert (Hs : start_point s1 = Some (x1, y1)).
    { unfold s1; rewrite moves_start_point; reflexivity. }
    unfold mouse_callback at 1; cbn.
    rewrite Hs; reflexivity. }
  intros x1 y1 x2 y2 ps flags s.
  rewrite !Hroi.
  repeat split; try lia.
  f_equal; f_equal; [f_equal; [f_equal|]|]; lia.
Qed.

Lemma reachable_no_anchor_no_roi s :
  reachable s -> start_point s = None -> roi s = None.
Proof.
  induction 1 as [|ev x y flags s Hr IH|s Hr IH]; intros Hs; try reflexivity.
  revert Hs; unfold mouse_callback.
  destruct (ev =? EVENT_LBUTTONDOWN)%Z; [discriminate|].
  destruct ((ev =? EVENT_MOUSEMOVE)%Z && selecting s); [exact IH|].
  destruct (ev =? EVENT_LBUTTONUP)%Z; [|exact IH].
  destruct (start_point s) as [[]|]; [discriminate|exact IH].
Qed.

(** C10: a button-up with no recorded anchor, in any reachable state,
    commits no region: [roi] stays [None], the up point becomes the end
    point, [selecting] is cleared and the anchor stays absent. *)
Theorem pointer_up_without_anchor (s : ROISelector) (x y flags : Z) :
  reachable s -> start_point s = None ->
  let s' := mouse_callback EVENT_LBUTTONUP x y flags s in
  roi s' = None /\ end_point s' = Some (x, y) /\ selecting s' = false /\
  start_point s' = None.
Proof.
  intros Hr Hs; cbn.
  unfold mouse_callback; cbn; rewrite Hs; cbn.
  repeat split; apply reachable_no_anchor_no_roi; assumption.
Qed.

Lemma pointer_up_without_anchor_witness :
  reachable (mouse_callback EVENT_MOUSEMOVE 3 4 0 init) /\
  start_point (mouse_callback EVENT_MOUSEMOVE 3 4 0 init) = None /\
  roi (mouse_callback EVENT_LBUTTONUP 7 8 0
         (mouse_callback EVENT_MOUSEMOVE 3 4 0 init)) = None.
Proof.
  assert (Hr : reachable (mouse_callback EVENT_MOUSEMOVE 3 4 0 init))
    by (apply reach_event; apply reach_init).
  split; [exact Hr|split; [reflexivity|]].
  apply (pointer_up_without_anchor _ 7 8 0 Hr); reflexivity.
Defined.

End ROIFacts.

(* ------------------------------------------------------------------ *)
(** ** Invariants of the [detect_codes] passes *)

Module DetectorInvariants.
Import Detector DetectorSpecs.

Lemma fold_min_bound (l : list Z) (a : Z) :
  fold_left Z.min l a <= a /\ Forall (fun y => fold_left Z.min l a <= y) l.
Proof.
  revert a; induction l as [|b l IH]; intros a; cbn; [split; [lia|constructor]|].
  destruct (IH (Z.min a b)) as [H1 H2]; split; [lia|constructor; [lia|exact H2]].
Qed.

Lemma fold_max_bound (l : list Z) (a : Z) :
  a <= fold_left Z.max l a /\ Forall (fun y => y <= fold_left Z.max l a) l.
Proof.
  revert a; induction l as [|b l IH]; intros a; cbn; [split; [lia|constructor]|].
  destruct (IH (Z.max a b)) as [H1 H2]; split; [lia|constructor; [lia|exact H2]].
Qed.

Lemma bounding_rect_spec poly s r s' :
  bounding_rect poly s = (Some r, s') -> s' = s /\ poly <> [] /\ in_box r poly.
Proof.
  unfold bounding_rect, bind, lift, ret, raise.
  destruct poly as [|[px py] poly]; cbn; [discriminate|].
  intros H; inversion H; subst; clear H.
  split; [reflexivity|split; [discriminate|]].
  pose proof (fold_min_bound (map fst poly) px) as [Hx1 Hx2].
  pose proof (fold_min_bound (map snd poly) py) as [Hy1 Hy2].
  pose proof (fold_max_bound (map fst poly) px) as [Hx3 Hx4].
  pose proof (fold_max_bound (map snd poly) py) as [Hy3 Hy4].
  rewrite Forall_map in Hx2, Hx4, Hy2, Hy4.
  cbn; split; [lia|split; [lia|]].
  constructor; [cbn; lia|].
  rewrite Forall_forall in *.
  intros p Hp; specialize (Hx2 p Hp); specialize (Hx4 p Hp);
    specialize (Hy2 p Hp); specialize (Hy4 p Hp); lia.
Qed.

Lemma bounding_rect_fail poly s s' :
  bounding_rect poly s = (None, s') -> s' = s.
Proof.
  unfold bounding_rect, bind, lift, ret, raise.
  repeat match goal with |- context [match ?o with Ok _ => _ | Raised => _ end] =>
    destruct o end; cbn; congruence.
Qed.

Section Invariant.
Variable clock : nat -> Q.
Variable Inv : DState -> Prop.

(** A [time.time()] reading keeps the invariant. *)
Hypothesis inv_now : forall s, Inv s -> Inv (mkDState (results s) (S (ticks s))).
(** So does appending an OpenCV QR result (the reading included). *)
Hypothesis inv_qr : forall s d r poly,
  Inv s -> truthy d = true -> poly <> [] -> in_box r poly ->
  Inv (mkDState (results s ++
         [mkDetectionResult d "QRCODE" r poly (9 # 10) (clock (ticks s) - clock 0)])
       (S (ticks s))).

Lemma qr_result_inv off d pts s :
  Inv s -> truthy d = true -> Inv (snd (qr_result clock (clock 0) off d pts s)).
Proof.
  intros Hs Hd; unfold qr_result, bind at 1.
  destruct (bounding_rect (offset_polygon off pts) s) as [[r|] s'] eqn:E.
  - apply bounding_rect_spec in E as [-> [Hne Hbox]].
    unfold bind, now, append; cbn.
    apply inv_qr; assumption.
  - apply bounding_rect_fail in E; subst; exact Hs.
Qed.

Lemma multi_loop_inv off l s :
  Inv s -> Inv (snd (multi_loop clock (clock 0) off l s)).
Proof.
  revert s; induction l as [|[d pts] l IH]; intros s Hs; [exact Hs|].
  simpl; unfold bind at 1.
  destruct (truthy d && strip_nonempty d) eqn:Hg.
  - apply andb_true_iff in Hg as [Hd _].
    unfold bind, get_results at 1.
    destruct (already_found d (results s)); [apply IH; exact Hs|].
    pose proof (qr_result_inv off d pts s Hs Hd) as H.
    destruct (qr_result clock (clock 0) off d pts s) as [[[]|] s'];
      [apply IH|]; exact H.
  - apply IH; exact Hs.
Qed.

Lemma qr_block_inv dAD dADM off image s :
  Inv s -> Inv (try_ (qr_block clock dAD dADM (clock 0) off image) s).
Proof.
  intros Hs; unfold try_, qr_block, bind at 1, lift at 1.
  destruct (dAD image) as [q|]; [|exact Hs].
  unfold ret, bind at 1.
  assert (H1 : Inv (snd (qr_single clock (clock 0) off q s))).
  { unfold qr_single; destruct (truthy (qs_data q)) eqn:Hd; [|exact Hs].
    destruct (qs_points q) as [pts|]; [|exact Hs].
    apply qr_result_inv; assumption. }
  destruct (qr_single clock (clock 0) off q s) as [[[]|] s1]; [|exact H1].
  cbn in H1 |- *; unfold bind, lift.
  destruct (dADM image) as [m|]; [|exact H1].
  unfold ret; destruct (qm_success m); [|exact H1].
  apply multi_loop_inv; exact H1.
Qed.

Lemma barcode_loop_inv (bs : list Barcode) s :
  (forall b d s, In b bs -> b_data b = Some d -> Inv s ->
     Inv (mkDState (results s ++
            [mkDetectionResult d (b_type b) (b_rect b) (barcode_polygon b)
               (9 # 10) (clock (ticks s) - clock 0)])
          (S (ticks s)))) ->
  Inv s -> Inv (snd (barcode_loop clock (clock 0) bs s)).
Proof.
  revert s; induction bs as [|b bs IH]; intros s Hbar Hs; [exact Hs|].
  simpl; unfold bind at 1, lift.
  destruct (b_data b) as [d|] eqn:Hb; [|exact Hs].
  unfold ret, bind, now, get_results; cbn.
  assert (Hin : forall b' d' s', In b' bs -> b_data b' = Some d' -> Inv s' ->
     Inv (mkDState (results s' ++
            [mkDetectionResult d' (b_type b') (b_rect b') (barcode_polygon b')
               (9 # 10) (clock (ticks s') - clock 0)])
          (S (ticks s')))).
  { intros; apply Hbar; [right|..]; assumption. }
  destruct (existsb _ (results s)).
  - apply IH; [exact Hin|].
    apply (inv_now s Hs).
  - apply IH; [exact Hin|].
    apply (Hbar b d s (or_introl eq_refl) Hb Hs).
Qed.

End Invariant.

End DetectorInvariants.

(* ------------------------------------------------------------------ *)
(** ** More properties of [detect_codes] *)

Module DetectorExtraFacts.
Import Detector DetectorSpecs DetectorInvariants.

Lemma detect_codes_unfold clock dAD dADM pz self image roi :
  detect_codes clock dAD dADM pz self image roi =
  let img := decoded_image image roi in
  let off := match roi with Some (x, y, _, _) => (x, y) | None => (0, 0) end in
  let s1 := try_ (qr_block clock dAD dADM (clock 0%nat) off img) (mkDState [] 1) in
  let s2 := try_ (barcode_block clock pz (clock 0%nat) img) s1 in
  (results s2, mkOpenCVDetector (detection_history self ++ results s2)).
Proof. destruct roi as [[[[x y] w] h]|]; reflexivity. Qed.

Lemma barcode_block_inv clock pz img (Inv : DState -> Prop) s :
  (forall s, Inv s -> Inv (mkDState (results s) (S (ticks s)))) ->
  (forall bs b d s, pz img = Ok bs -> In b bs -> b_data b = Some d -> Inv s ->
     Inv (mkDState (results s ++
            [mkDetectionResult d (b_type b) (b_rect b) (barcode_polygon b)
               (9 # 10) (clock (ticks s) - clock 0%nat)])
          (S (ticks s)))) ->
  Inv s -> Inv (try_ (barcode_block clock pz (clock 0%nat) img) s).
Proof.
  intros Hnow Hbar Hs; unfold try_, barcode_block, bind at 1, lift.
  destruct (pz img) as [bs|] eqn:E; unfold ret, raise; cbn [snd]; [|exact Hs].
  apply (barcode_loop_inv clock Inv Hnow bs s); [|exact Hs].
  intros b d s' Hb Hd Hs'; apply (Hbar bs b d s' eq_refl Hb Hd Hs').
Qed.

(** Every result of a [detect_codes] batch is either an OpenCV QR result
    (type ["QRCODE"], non-empty payload, non-empty polygon lying inside a
    rect of non-negative size) or a copy of a symbol pyzbar returned (its
    type, rect and polygon, or the rect's corners when it has none); all
    carry the fixed confidence 0.9. *)
Theorem detect_codes_result_provenance clock dAD dADM pz self image roi :
  Forall (fun r => from_opencv r \/
            exists bs, pz (decoded_image image roi) = Ok bs /\ from_pyzbar bs r)
    (fst (detect_codes clock dAD dADM pz self image roi)) /\
  Forall (fun r => confidence r = 9 # 10)
    (fst (detect_codes clock dAD dADM pz self image roi)).
Proof.
  set (P := fun r => from_opencv r \/
            exists bs, pz (decoded_image image roi) = Ok bs /\ from_pyzbar bs r).
  assert (HP : Forall P (fst (detect_codes clock dAD dADM pz self image roi))).
  { rewrite detect_codes_unfold; cbn zeta; cbn [fst].
    apply (barcode_block_inv clock pz _ (fun s => Forall P (results s))).
    - intros s Hs; exact Hs.
    - intros bs b d s Hpz Hb Hd Hs; cbn.
      apply Forall_app; split; [exact Hs|constructor; [|constructor]].
      right; exists bs; split; [exact Hpz|].
      exists b; repeat split; assumption.
    - apply (qr_block_inv clock (fun s => Forall P (results s))).
      + intros s d r poly Hs Hd Hne Hbox; cbn.
        apply Forall_app; split; [exact Hs|constructor; [|constructor]].
        left; repeat split; assumption.
      + constructor. }
  split; [exact HP|].
  eapply Forall_impl; [|exact HP].
  intros r [[_ [_ [Hc _]]]|[bs [_ [b [_ [_ [_ [_ [_ Hc]]]]]]]]]; exact Hc.
Qed.

Lemma nondecreasing_snoc (l : list Q) (y : Q) :
  nondecreasing l -> Forall (fun x => (x <= y)%Q) l -> nondecreasing (l ++ [y]).
Proof.
  induction l as [|a l IH]; intros Hn Hf; [exact I|].
  inversion Hf as [|? ? Ha Hl]; subst.
  destruct l as [|b l]; cbn; [split; [exact Ha|exact I]|].
  destruct Hn as [Hab Hn]; split; [exact Hab|].
  apply IH; assumption.
Qed.

(** With a clock that never goes backwards, the detection times of a batch
    are non-negative and in the order the results were found. *)
Theorem detect_codes_times_ordered (clock : nat -> Q) dAD dADM pz self image roi :
  (forall m n, (m <= n)%nat -> (clock m <= clock n)%Q) ->
  nondecreasing (map detection_time
                   (fst (detect_codes clock dAD dADM pz self image roi))) /\
  Forall (fun r => (0 <= detection_time r)%Q)
    (fst (detect_codes clock dAD dADM pz self image roi)).
Proof.
  intros Hmono.
  set (Inv := fun s =>
    nondecreasing (map detection_time (results s)) /\
    Forall (fun r => 0 <= detection_time r /\
                     detection_time r <= clock (ticks s) - clock 0%nat)%Q
      (results s)).
  assert (Hnow : forall s, Inv s -> Inv (mkDState (results s) (S (ticks s)))).
  { intros s [Hn Hf]; split; [exact Hn|]; cbn.
    eapply Forall_impl; [|exact Hf]; intros r [H1 H2]; split; [exact H1|].
    pose proof (Hmono (ticks s) (S (ticks s)) (Nat.le_succ_diag_r _)); lra. }
  assert (Happ : forall s r, Inv s ->
     detection_time r = (clock (ticks s) - clock 0%nat)%Q ->
     Inv (mkDState (results s ++ [r]) (S (ticks s)))).
  { intros s r [Hn Hf] Hr; unfold Inv; cbn [results ticks]; split.
    - rewrite map_app; apply nondecreasing_snoc; [exact Hn|].
      rewrite Forall_map; eapply Forall_impl; [|exact Hf].
      intros r' [_ H]; rewrite Hr; exact H.
    - pose proof (Hmono (ticks s) (S (ticks s)) (Nat.le_succ_diag_r _)).
      pose proof (Hmono 0%nat (ticks s) (Nat.le_0_l _)).
      apply Forall_app; split.
      + eapply Forall_impl; [|exact Hf]; intros r' [H1 H2]; split; lra.
      + constructor; [|constructor]; rewrite Hr; split; lra. }
  assert (HI : exists s, results s = fst (detect_codes clock dAD dADM pz self image roi)
                         /\ Inv s).
  { rewrite detect_codes_unfold; cbn zeta; cbn [fst].
    eexists; split; [reflexivity|].
    apply (barcode_block_inv clock pz _ Inv); [exact Hnow| |].
    - intros bs b d s _ _ _ Hs; apply Happ; [exact Hs|reflexivity].
    - apply (qr_block_inv clock Inv).
      + intros s d r poly Hs _ _ _; apply Happ; [exact Hs|reflexivity].
      + split; [exact I|constructor]. }
  destruct HI as [s [Hs [Hn Hf]]]; rewrite <- Hs; split; [exact Hn|].
  eapply Forall_impl; [|exact Hf]; intros r [H1 _]; exact H1.
Qed.

Lemma detect_codes_times_ordered_witness :
  nondecreasing (map detection_time
     (fst (detect_codes DetectorScenarios.unit_clock
             DetectorScenarios.hello_single DetectorScenarios.hello_multi
             DetectorScenarios.ean_pyzbar DetectorScenarios.fresh_detector
             DetectorScenarios.frame50 None))) /\
  Forall (fun r => (0 <= detection_time r)%Q)
    (fst (detect_codes DetectorScenarios.unit_clock
             DetectorScenarios.hello_single DetectorScenarios.hello_multi
             DetectorScenarios.ean_pyzbar DetectorScenarios.fresh_detector
             DetectorScenarios.frame50 None)).
Proof.
  apply detect_codes_times_ordered.
  intros m n Hmn; unfold DetectorScenarios.unit_clock.
  unfold Qle; cbn; rewrite !Z.mul_1_r; lia.
Defined.

Lemma slice_whole {A} (l : list A) (n : Z) :
  Z.of_nat (List.length l) <= n -> Py.slice l 0%Z n = l.
Proof.
  intros Hn; unfold Py.slice, Py.slice_bound.
  replace (0 <? 0)%Z with false by reflexivity.
  replace (n <? 0)%Z with false by (symmetry; apply Z.ltb_ge; lia).
  rewrite (Z.min_l 0) by lia; rewrite (Z.min_r n) by lia.
  rewrite Z.sub_0_r, Nat2Z.id; apply firstn_all.
Qed.

Lemma crop_whole (image : Image) (W H : Z) :
  Z.of_nat (List.length image) <= H ->
  Forall (fun row => Z.of_nat (List.length row) <= W) image ->
  crop image (0, 0, W, H) = image.
Proof.
  intros HH HW; unfold crop; rewrite !Z.add_0_l, slice_whole by exact HH.
  rewrite <- (map_id image) at 2; apply map_ext_in.
  intros row Hin; rewrite Forall_forall in HW; apply slice_whole, HW, Hin.
Qed.

(** A region covering the whole frame, (0, 0, W, H) with the frame at most
    W wide and H high, gives the same batch and history as no region. *)
Theorem detect_codes_full_frame_roi clock dAD dADM pz self image (W H : Z) :
  Z.of_nat (List.length image) <= H ->
  Forall (fun row => Z.of_nat (List.length row) <= W) image ->
  detect_codes clock dAD dADM pz self image (Some (0, 0, W, H)) =
  detect_codes clock dAD dADM pz self image None.
Proof.
  intros HH HW; rewrite !detect_codes_unfold; unfold decoded_image.
  rewrite crop_whole by assumption; reflexivity.
Qed.

Lemma detect_codes_full_frame_roi_witness :
  Z.of_nat (List.length DetectorScenarios.frame50) <= 50 /\
  Forall (fun row => Z.of_nat (List.length row) <= 50) DetectorScenarios.frame50 /\
  detect_codes DetectorScenarios.unit_clock DetectorScenarios.hello_single
    DetectorScenarios.hello_multi DetectorScenarios.ean_pyzbar
    DetectorScenarios.fresh_detector DetectorScenarios.frame50
    (Some (0, 0, 50, 50)) =
  detect_codes DetectorScenarios.unit_clock DetectorScenarios.hello_single
    DetectorScenarios.hello_multi DetectorScenarios.ean_pyzbar
    DetectorScenarios.fresh_detector DetectorScenarios.frame50 None.
Proof.
  assert (H1 : Z.of_nat (List.length DetectorScenarios.frame50) <= 50)
    by (vm_compute; discriminate).
  assert (H2 : Forall (fun row => Z.of_nat (List.length row) <= 50)
                 DetectorScenarios.frame50).
  { apply Forall_forall; intros row Hin.
    apply repeat_spec in Hin; subst row; vm_compute; discriminate. }
  split; [exact H1|split; [exact H2|]].
  apply (detect_codes_full_frame_roi DetectorScenarios.unit_clock
           DetectorScenarios.hello_single DetectorScenarios.hello_multi
           DetectorScenarios.ean_pyzbar DetectorScenarios.fresh_detector
           DetectorScenarios.frame50 50 50 H1 H2).
Defined.

(** Both OpenCV decoders sit in one [try] block: when [detectAndDecode]
    raises on the decoded image, [detectAndDecodeMulti] is never consulted,
    so the batch is the same whatever the multi decoder would return. *)
Theorem detect_codes_single_failure_skips_multi
    clock dAD dADM dADM' pz self image roi :
  dAD (decoded_image image roi) = Raised ->
  detect_codes clock dAD dADM pz self image roi =
  detect_codes clock dAD dADM' pz self image roi.
Proof.
  intros Hr; rewrite !detect_codes_unfold; cbn zeta.
  unfold try_ at 1 3, qr_block, bind at 1 3, lift at 1 3.
  rewrite Hr; reflexivity.
Qed.

Lemma detect_codes_single_failure_skips_multi_witness :
  DetectorScenarios.raising_single
    (decoded_image DetectorScenarios.frame50 None) = Raised /\
  detect_codes DetectorScenarios.unit_clock DetectorScenarios.raising_single
    DetectorScenarios.hello_multi DetectorScenarios.no_pyzbar
    DetectorScenarios.fresh_detector DetectorScenarios.frame50 None =
  detect_codes DetectorScenarios.unit_clock DetectorScenarios.raising_single
    DetectorScenarios.no_multi DetectorScenarios.no_pyzbar
    DetectorScenarios.fresh_detector DetectorScenarios.frame50 None.
Proof.
  split; [reflexivity|].
  apply detect_codes_single_failure_skips_multi; reflexivity.
Defined.

(** A failing pyzbar (an exception while decoding, or pyzbar not
    installed) loses none of the OpenCV results: the batch is the one
    pyzbar would give by finding no symbol. *)
Theorem detect_codes_pyzbar_failure_keeps_qr clock dAD dADM pz self image roi :
  pz (decoded_image image roi) = Raised ->
  detect_codes clock dAD dADM pz self image roi =
  detect_codes clock dAD dADM (fun _ => Ok []) self image roi.
Proof.
  intros Hr; rewrite !detect_codes_unfold; cbn zeta.
  unfold try_ at 2 4, barcode_block, bind at 1 3, lift at 1 3.
  rewrite Hr; reflexivity.
Qed.

Lemma detect_codes_pyzbar_failure_keeps_qr_witness :
  DetectorScenarios.raising_pyzbar
    (decoded_image DetectorScenarios.frame50 None) = Raised /\
  detect_codes DetectorScenarios.unit_clock DetectorScenarios.hello_single
    DetectorScenarios.hello_multi DetectorScenarios.raising_pyzbar
    DetectorScenarios.fresh_detector DetectorScenarios.frame50 None =
  detect_codes DetectorScenarios.unit_clock DetectorScenarios.hello_single
    DetectorScenarios.hello_multi (fun _ => Ok [])
    DetectorScenarios.fresh_detector DetectorScenarios.frame50 None.
Proof.
  split; [reflexivity|].
  apply detect_codes_pyzbar_failure_keeps_qr; reflexivity.
Defined.

End DetectorExtraFacts.

(* ------------------------------------------------------------------ *)
(** ** Properties of the detection statistics and of the drawing *)

Module DetectorMoreFacts.
Import Detector DetectorSpecs DetectorInvariants DetectorMore Performance.

Lemma compare_gt_lt (a b : string) :
  String.compare a b = Gt -> String.compare b a = Lt.
Proof. intros H; rewrite String.compare_antisym, H; reflexivity. Qed.

Lemma insert_sorted_in t u x : In x (insert_sorted t u) <-> t = x \/ In x u.
Proof.
  induction u as [|k r IH]; cbn; [tauto|].
  destruct (String.compare t k) eqn:E; cbn.
  - apply String.compare_eq_iff in E; subst; tauto.
  - tauto.
  - rewrite IH; tauto.
Qed.

Lemma insert_sorted_cons k t u :
  strictly_sorted (k :: u) -> String.compare k t = Lt ->
  strictly_sorted (k :: insert_sorted t u).
Proof.
  revert k; induction u as [|k2 r IH]; intros k Hs Hkt; cbn; [split; [exact Hkt|exact I]|].
  destruct Hs as [Hkk2 Hs].
  destruct (String.compare t k2) eqn:E.
  - split; assumption.
  - repeat split; assumption.
  - split; [exact Hkk2|]; apply IH; [exact Hs|apply compare_gt_lt, E].
Qed.

Lemma insert_sorted_sorted t u :
  strictly_sorted u -> strictly_sorted (insert_sorted t u).
Proof.
  destruct u as [|k r]; intros Hs; cbn; [exact I|].
  destruct (String.compare t k) eqn:E.
  - exact Hs.
  - split; assumption.
  - apply insert_sorted_cons; [exact Hs|apply compare_gt_lt, E].
Qed.

Lemma insert_sorted_nodup t u : NoDup u -> ~ In t u -> NoDup (insert_sorted t u).
Proof.
  induction u as [|k r IH]; intros Hn Ht; cbn; [constructor; [intros []|constructor]|].
  inversion Hn as [|? ? Hk Hr]; subst.
  destruct (String.compare t k) eqn:E.
  - exact Hn.
  - constructor; [exact Ht|exact Hn].
  - constructor.
    + rewrite insert_sorted_in; intros [->|H]; [apply Ht; left; reflexivity|tauto].
    + apply IH; [exact Hr|intros H; apply Ht; right; exact H].
Qed.

Lemma np_unique_fold xs u seen :
  strictly_sorted u -> NoDup u -> (forall x, In x u <-> In x seen) ->
  let u' := fold_left (fun u t => if existsb (String.eqb t) u then u
                                  else insert_sorted t u) xs u in
  strictly_sorted u' /\ NoDup u' /\ (forall x, In x u' <-> In x (seen ++ xs)).
Proof.
  revert u seen; induction xs as [|t xs IH]; intros u seen Hs Hn Hi; cbn.
  - rewrite app_nil_r; auto.
  - replace (seen ++ t :: xs) with ((seen ++ [t]) ++ xs)
      by (rewrite <- app_assoc; reflexivity).
    apply IH.
    + destruct (existsb _ u); [exact Hs|apply insert_sorted_sorted, Hs].
    + destruct (existsb (String.eqb t) u) eqn:E; [exact Hn|].
      apply insert_sorted_nodup; [exact Hn|].
      intros Hin; apply Bool.not_true_iff_false in E; apply E.
      apply existsb_exists; exists t; split; [exact Hin|apply String.eqb_refl].
    + intros x; rewrite in_app_iff, <- Hi; cbn.
      destruct (existsb (String.eqb t) u) eqn:E.
      * apply existsb_exists in E as [t' [Ht' Heq]].
        apply String.eqb_eq in Heq; subst t'; split; [tauto|].
        intros [H|[<-|[]]]; assumption.
      * rewrite insert_sorted_in; tauto.
Qed.

Lemma np_unique_spec xs :
  strictly_sorted (np_unique xs) /\ NoDup (np_unique xs) /\
  (forall x, In x (np_unique xs) <-> In x xs).
Proof.
  apply (np_unique_fold xs [] []); [exact I|constructor|tauto].
Qed.

Lemma list_sum_zero {A} (u : list A) : list_sum (map (fun _ => 0%nat) u) = 0%nat.
Proof. induction u; cbn; auto. Qed.

Lemma list_sum_cons' (a : nat) l : list_sum (a :: l) = (a + list_sum l)%nat.
Proof. reflexivity. Qed.

Lemma list_sum_indicator_out x u :
  ~ In x u ->
  list_sum (map (fun k => if string_dec x k then 1%nat else 0%nat) u) = 0%nat.
Proof.
  induction u as [|k r IH]; intros Hx; [reflexivity|]; cbn [map]; rewrite list_sum_cons'.
  destruct (string_dec x k) as [->|Hne]; [exfalso; apply Hx; left; reflexivity|].
  rewrite IH; [reflexivity|intros H; apply Hx; right; exact H].
Qed.

Lemma list_sum_indicator_in x u :
  NoDup u -> In x u ->
  list_sum (map (fun k => if string_dec x k then 1%nat else 0%nat) u) = 1%nat.
Proof.
  induction u as [|k r IH]; intros Hn Hx; [destruct Hx|]; cbn [map]; rewrite list_sum_cons'.
  inversion Hn as [|? ? Hk Hr]; subst.
  destruct (string_dec x k) as [->|Hne].
  - rewrite list_sum_indicator_out by exact Hk; reflexivity.
  - destruct Hx as [->|Hx]; [congruence|]; rewrite IH by assumption; reflexivity.
Qed.

Lemma list_sum_counts xs u :
  NoDup u -> (forall x, In x xs -> In x u) ->
  list_sum (map (fun k => count_occ string_dec xs k) u) = List.length xs.
Proof.
  revert u; induction xs as [|x xs IH]; intros u Hn Hin; cbn.
  - apply list_sum_zero.
  - transitivity (list_sum (map (fun k => if string_dec x k then 1%nat else 0%nat) u)
                  + list_sum (map (fun k => count_occ string_dec xs k) u))%nat.
    + clear IH Hin; induction u as [|k r IHu]; [reflexivity|].
      inversion Hn; subst; cbn [map]; rewrite !list_sum_cons', IHu by assumption.
      cbn [count_occ]; destruct (string_dec x k); lia.
    + rewrite list_sum_indicator_in by (assumption || (apply Hin; left; reflexivity)).
      rewrite IH by (assumption || (intros; apply Hin; right; assumption)).
      reflexivity.
Qed.

(** [get_detection_statistics] on a non-empty history: ["total_detections"]
    is the history's length and ["code_types"] maps each code type found in
    the history, in increasing order and once, to its number of
    occurrences; the counts add up to the total. *)
Theorem detection_statistics_code_types (self : OpenCVDetector) :
  detection_history self <> [] ->
  let types := map type (detection_history self) in
  py_get (get_detection_statistics self) "total_detections" =
    Some (PyInt (Z.of_nat (List.length (detection_history self)))) /\
  py_get (get_detection_statistics self) "code_types" =
    Some (PyDict (map (fun p => (fst p, PyInt (Z.of_nat (snd p))))
                    (unique_counts types))) /\
  strictly_sorted (map fst (unique_counts types)) /\
  (forall t, In t (map fst (unique_counts types)) <-> In t types) /\
  Forall (fun p => snd p = count_occ string_dec types (fst p)) (unique_counts types) /\
  list_sum (map snd (unique_counts types)) = List.length (detection_history self).
Proof.
  intros Hne types.
  destruct (np_unique_spec types) as [Hs [Hn Hi]].
  assert (Hk : map fst (unique_counts types) = np_unique types).
  { unfold unique_counts; rewrite map_map; apply map_id. }
  split; [|split; [|split; [|split; [|split]]]].
  - unfold get_detection_statistics; destruct (detection_history self); [congruence|].
    reflexivity.
  - unfold get_detection_statistics, types; destruct (detection_history self);
      [congruence|reflexivity].
  - rewrite Hk; exact Hs.
  - intros t; rewrite Hk; apply Hi.
  - unfold unique_counts; apply Forall_map, Forall_forall; intros; reflexivity.
  - unfold unique_counts; rewrite map_map; cbn.
    rewrite list_sum_counts; [apply length_map|exact Hn|intros x; apply Hi].
Qed.

Lemma detection_statistics_code_types_witness :
  let self := mkOpenCVDetector
    [mkDetectionResult "a" "QRCODE" (0, 0, 1, 1) [] (9 # 10) 1;
     mkDetectionResult "b" "EAN13" (0, 0, 1, 1) [] (9 # 10) 2;
     mkDetectionResult "c" "QRCODE" (0, 0, 1, 1) [] (9 # 10) 3] in
  detection_history self <> [] /\
  (let types := map type (detection_history self) in
  py_get (get_detection_statistics self) "total_detections" =
    Some (PyInt (Z.of_nat (List.length (detection_history self)))) /\
  py_get (get_detection_statistics self) "code_types" =
    Some (PyDict (map (fun p => (fst p, PyInt (Z.of_nat (snd p))))
                    (unique_counts types))) /\
  strictly_sorted (map fst (unique_counts types)) /\
  (forall t, In t (map fst (unique_counts types)) <-> In t types) /\
  Forall (fun p => snd p = count_occ string_dec types (fst p)) (unique_counts types) /\
  list_sum (map snd (unique_counts types)) = List.length (detection_history self)).
Proof.
  intros self.
  assert (H : detection_history self <> []) by discriminate.
  split; [exact H|apply (detection_statistics_code_types self H)].
Defined.

Lemma string_length_append (s1 s2 : string) :
  String.length (s1 ++ s2)%string = (String.length s1 + String.length s2)%nat.
Proof. induction s1 as [|c s1 IH]; cbn; [reflexivity|rewrite IH; reflexivity]. Qed.

Lemma substring_prefix_length (n : nat) (d : string) :
  (n <= String.length d)%nat -> String.length (substring 0 n d) = n.
Proof.
  revert d; induction n as [|n IH]; intros d Hn; [destruct d; reflexivity|].
  destruct d as [|c d]; cbn in Hn |- *; [lia|].
  f_equal; apply IH; lia.
Qed.

(** The label [draw_detections] puts on each result: a filled box and its
    border, 110 pixels high, placed right above the detection's rect when
    its top edge stays below row 0, and otherwise starting at the rect's
    bottom edge; the box is wide enough for each of the four text lines,
    which sit 25 pixels apart inside it; the content line is the payload
    when it has at most 80 characters, and otherwise its first 77
    characters followed by "...", 80 characters in all. *)
Theorem draw_detections_label_layout text_width format_percent
    (r : DetectionResult) (results : list DetectionResult) :
  In r results ->
  let '(x, y, w, h) := rect r in
  exists bg_y max_width,
    incl (draw_result text_width format_percent r)
         (draw_detections text_width format_percent results) /\
    draw_result text_width format_percent r =
      [Polylines (polygon r) true (0, 255, 0) 3;
       Rectangle (x, y) (x + w, y + h) (255, 0, 0) 3;
       Rectangle (x - 10, bg_y) (x + max_width + 20, bg_y + 110) (0, 0, 0) (-1);
       Rectangle (x - 10, bg_y) (x + max_width + 20, bg_y + 110) (255, 255, 255) 2;
       PutText ("Type: " ++ type r)%string (x, bg_y + 25) (255, 255, 0) 2;
       PutText ("Confidence: " ++ format_percent (confidence r))%string
         (x, bg_y + 50) (0, 255, 255) 2;
       PutText "Content:" (x, bg_y + 75) (255, 255, 255) 2;
       PutText (data_display (data r)) (x, bg_y + 100) (0, 255, 0) 2] /\
    ((0 < y - 110 /\ bg_y + 110 = y) \/ (y - 110 <= 0 /\ bg_y = y + h)) /\
    Forall (fun line => text_width line <= max_width) (label_lines format_percent r) /\
    ((String.length (data r) <= 80)%nat -> data_display (data r) = data r) /\
    ((80 < String.length (data r))%nat ->
       data_display (data r) = (substring 0 77 (data r) ++ "...")%string /\
       String.length (data_display (data r)) = 80%nat).
Proof.
  intros Hin.
  assert (Hincl : incl (draw_result text_width format_percent r)
                       (draw_detections text_width format_percent results)).
  { intros op Hop; unfold draw_detections; apply in_flat_map; exists r; split; assumption. }
  destruct (rect r) as [[[x y] w] h] eqn:Er; cbv beta iota.
  set (lines := label_lines format_percent r).
  set (mw := fold_left Z.max (tl (map text_width lines)) (hd 0 (map text_width lines))).
  exists (if (0 <? y - (Z.of_nat (List.length lines) * 25 + 10))%Z
          then y - (Z.of_nat (List.length lines) * 25 + 10) else y + h), mw.
  split; [exact Hincl|].
  split.
  { unfold draw_result; rewrite Er; cbv zeta; fold lines mw.
    cbn [lines label_lines List.length combine seq map colors].
    cbn [app]; set (bg := if (0 <? y - (Z.of_nat 4 * 25 + 10))%Z then y - (Z.of_nat 4 * 25 + 10) else y + h).
    replace (bg + 25 + Z.of_nat 0 * 25) with (bg + 25) by lia.
    replace (bg + 25 + Z.of_nat 1 * 25) with (bg + 50) by lia.
    replace (bg + 25 + Z.of_nat 2 * 25) with (bg + 75) by lia.
    replace (bg + 25 + Z.of_nat 3 * 25) with (bg + 100) by lia.
    reflexivity. }
  split; [|split; [|split]].
  - cbn [lines label_lines List.length].
    destruct (0 <? y - (Z.of_nat 4 * 25 + 10))%Z eqn:E;
      [apply Z.ltb_lt in E|apply Z.ltb_ge in E]; cbn in E |- *; lia.
  - pose proof (DetectorInvariants.fold_max_bound
                  (tl (map text_width lines)) (hd 0 (map text_width lines))) as [H1 H2].
    fold mw in H1, H2.
    assert (Hm : Forall (fun z => z <= mw) (map text_width lines)).
    { change (map text_width lines) with
        (hd 0 (map text_width lines) :: tl (map text_width lines)).
      exact (Forall_cons (P := fun z => z <= mw) _ H1 H2). }
    rewrite Forall_map in Hm; exact Hm.
  - unfold data_display; intros Hle; apply Nat.leb_le in Hle; rewrite Hle; reflexivity.
  - unfold data_display; intros Hgt.
    assert (Hn : (String.length (data r) <=? 80)%nat = false) by (apply Nat.leb_gt; exact Hgt).
    rewrite Hn; split; [reflexivity|].
    rewrite string_length_append, substring_prefix_length by lia; reflexivity.
Qed.

Lemma draw_detections_label_layout_witness :
  let r := mkDetectionResult "hello" "QRCODE" (1, 1, 4, 4) DetectorScenarios.qr_square
             (9 # 10) 1 in
  In r [r] /\
  let '(x, y, w, h) := rect r in
  exists bg_y max_width,
    incl (draw_result (fun s => Z.of_nat (String.length s) * 15) (fun _ => "90.0%") r)
         (draw_detections (fun s => Z.of_nat (String.length s) * 15) (fun _ => "90.0%") [r]) /\
    draw_result (fun s => Z.of_nat (String.length s) * 15) (fun _ => "90.0%") r =
      [Polylines (polygon r) true (0, 255, 0) 3;
       Rectangle (x, y) (x + w, y + h) (255, 0, 0) 3;
       Rectangle (x - 10, bg_y) (x + max_width + 20, bg_y + 110) (0, 0, 0) (-1);
       Rectangle (x - 10, bg_y) (x + max_width + 20, bg_y + 110) (255, 255, 255) 2;
       PutText ("Type: " ++ type r)%string (x, bg_y + 25) (255, 255, 0) 2;
       PutText ("Confidence: " ++ (fun _ => "90.0%") (confidence r))%string
         (x, bg_y + 50) (0, 255, 255) 2;
       PutText "Content:" (x, bg_y + 75) (255, 255, 255) 2;
       PutText (data_display (data r)) (x, bg_y + 100) (0, 255, 0) 2] /\
    ((0 < y - 110 /\ bg_y + 110 = y) \/ (y - 110 <= 0 /\ bg_y = y + h)) /\
    Forall (fun line => (fun s => Z.of_nat (String.length s) * 15) line <= max_width)
      (label_lines (fun _ => "90.0%") r) /\
    ((String.length (data r) <= 80)%nat -> data_display (data r) = data r) /\
    ((80 < String.length (data r))%nat ->
       data_display (data r) = (substring 0 77 (data r) ++ "...")%string /\
       String.length (data_display (data r)) = 80%nat).
Proof.
  intros r.
  assert (H : In r [r]) by (left; reflexivity).
  split; [exact H|].
  exact (draw_detections_label_layout (fun s => Z.of_nat (String.length s) * 15)
           (fun _ => "90.0%") r [r] H).
Defined.

End DetectorMoreFacts.

(* ------------------------------------------------------------------ *)
(** ** More properties of [PerformanceMonitor] *)

Module PerformanceMoreFacts.
Import Performance Aux.

Lemma lastn_lastn_app {A} (k : nat) (l r : list A) :
  lastn k (lastn k l ++ r) = lastn k (l ++ r).
Proof.
  unfold lastn.
  set (j := (List.length l - k)%nat).
  assert (E : skipn j l ++ r = skipn j (l ++ r)).
  { rewrite skipn_app; replace (j - List.length l)%nat with 0%nat by lia; reflexivity. }
  rewrite E, length_skipn, skipn_skipn, length_app.
  f_equal; unfold j; lia.
Qed.

Lemma update_fps_lastn t s :
  locked s = false ->
  update_fps t s =
  Returned tt
    (mkPerformanceMonitor (start_time s) (lastn 60 (frame_times s ++ [t])) t
       (frame_count s + 1) (detection_count s) (monitoring s) false).
Proof.
  intros Hl; rewrite (PerformanceFacts.update_fps_unfold t s Hl); cbv zeta.
  do 2 f_equal.
  destruct (60 <? List.length (frame_times s ++ [t]))%nat eqn:E.
  - apply Nat.ltb_lt in E; rewrite PerformanceFacts.slice_last60 by exact E; reflexivity.
  - apply Nat.ltb_ge in E; unfold lastn.
    replace (List.length (frame_times s ++ [t]) - 60)%nat with 0%nat by lia; reflexivity.
Qed.

Lemma update_fps_all_spec ts s :
  locked s = false -> ts <> [] ->
  exists s', update_fps_all ts s = Returned tt s' /\
    frame_times s' = lastn 60 (frame_times s ++ ts) /\
    frame_count s' = frame_count s + Z.of_nat (List.length ts) /\
    last_frame_time s' = last ts 0%Q /\
    detection_count s' = detection_count s /\
    start_time s' = start_time s /\ monitoring s' = monitoring s /\
    locked s' = false.
Proof.
  revert s; induction ts as [|t ts IH]; intros s Hl Hne; [congruence|].
  cbn [update_fps_all]; rewrite (update_fps_lastn t s Hl).
  destruct ts as [|t2 ts'].
  - eexists; split; [reflexivity|]; cbn.
    repeat split; lia.
  - destruct (IH (mkPerformanceMonitor (start_time s) (lastn 60 (frame_times s ++ [t])) t
                    (frame_count s + 1) (detection_count s) (monitoring s) false)
                 eq_refl ltac:(discriminate)) as [s' [Hrun [Hft [Hfc [Hlt [Hdc [Hst [Hmo Hlk]]]]]]]].
    exists s'; split; [exact Hrun|]; cbn [frame_times frame_count detection_count
      start_time monitoring] in *.
    split; [rewrite Hft, lastn_lastn_app, <- app_assoc; reflexivity|].
    split; [rewrite Hfc; cbn [List.length]; lia|].
    split; [rewrite Hlt; reflexivity|].
    repeat split; assumption.
Qed.

(** A run of [update_fps] calls at the clock readings [ts] (lock free at the
    start) keeps as window the last 60 of all timestamps recorded, counts
    one frame per call, remembers the last reading and touches neither the
    detection count, the start time nor the monitoring flag. *)
Theorem update_fps_all_window ts s :
  locked s = false -> ts <> [] ->
  exists s', update_fps_all ts s = Returned tt s' /\
    frame_times s' = lastn 60 (frame_times s ++ ts) /\
    frame_count s' = frame_count s + Z.of_nat (List.length ts) /\
    last_frame_time s' = last ts 0%Q /\
    detection_count s' = detection_count s /\
    start_time s' = start_time s /\ monitoring s' = monitoring s /\
    locked s' = false.
Proof. exact (update_fps_all_spec ts s). Qed.

Lemma update_fps_all_window_witness :
  locked (init 0) = false /\ [1; 2; 3]%Q <> [] /\
  exists s', update_fps_all [1; 2; 3]%Q (init 0) = Returned tt s' /\
    frame_times s' = lastn 60 (frame_times (init 0) ++ [1; 2; 3]%Q) /\
    frame_count s' = frame_count (init 0) + Z.of_nat (List.length [1; 2; 3]%Q) /\
    last_frame_time s' = last [1; 2; 3]%Q 0%Q /\
    detection_count s' = detection_count (init 0) /\
    start_time s' = start_time (init 0) /\ monitoring s' = monitoring (init 0) /\
    locked s' = false.
Proof.
  assert (H1 : locked (init 0) = false) by reflexivity.
  assert (H2 : [1; 2; 3]%Q <> []) by discriminate.
  split; [exact H1|split; [exact H2|]].
  exact (update_fps_all_window [1; 2; 3]%Q (init 0) H1 H2).
Defined.

(** [get_current_metrics] never returns, in any state: it calls
    [get_performance_summary], which takes the non-reentrant lock and then
    calls [get_current_fps], which waits for the same lock. *)
Theorem get_current_metrics_never_returns (s : PerformanceMonitor) :
  get_current_metrics s = Deadlocked.
Proof. unfold get_current_metrics; apply PerformanceFacts.get_performance_summary_blocks. Qed.

(** [start_monitoring] and [stop_monitoring] only set a flag that no other
    method reads: setting it before a call or after it gives the same
    outcome, for [update_fps], [record_detection_time], [reset_stats] and
    [get_current_fps]. *)
Theorem monitoring_flag_unused (s : PerformanceMonitor) (t dt : Q) (b : bool) :
  let set_flag := if b then start_monitoring else stop_monitoring in
  update_fps t (set_flag s) = run_map set_flag (update_fps t s) /\
  record_detection_time dt (set_flag s) = run_map set_flag (record_detection_time dt s) /\
  reset_stats t (set_flag s) = run_map set_flag (reset_stats t s) /\
  get_current_fps (set_flag s) = run_map set_flag (get_current_fps s).
Proof.
  destruct s as [st ft lt fc dc mo []], b; repeat split.
Qed.

End PerformanceMoreFacts.

(* ------------------------------------------------------------------ *)
(** ** More properties of [CameraManager] *)

Module CameraMoreFacts.
Import Camera CameraMore Aux.

Lemma initialize_camera_ok d s :
  fst (initialize_camera d s) =
  negb (ctor_raises d (camera_index s)) && can_open d (camera_index s)
  && test_read_ok d (camera_index s).
Proof.
  unfold initialize_camera; cbn.
  destruct (ctor_raises d (camera_index s)), (can_open d (camera_index s)),
    (test_read_ok d (camera_index s)); reflexivity.
Qed.

Lemma probe_fold d (is : list Z) acc :
  fold_left (fun acc i =>
      if ctor_raises d i then acc
      else if can_open d i then
        (if test_read_ok d i then acc ++ [i] else acc)
      else acc) is acc =
  acc ++ filter (fun i => fst (initialize_camera d (new i))) is.
Proof.
  revert acc; induction is as [|i is IH]; intros acc; cbn [fold_left filter].
  - rewrite app_nil_r; reflexivity.
  - rewrite initialize_camera_ok; cbn [camera_index new].
    destruct (ctor_raises d i), (can_open d i), (test_read_ok d i); cbn [negb andb];
      rewrite IH; try reflexivity; rewrite <- app_assoc; reflexivity.
Qed.

Lemma list_available_cameras_filter d :
  list_available_cameras d =
  filter (fun i => fst (initialize_camera d (new i))) (map Z.of_nat (seq 0 10)).
Proof. unfold list_available_cameras; rewrite probe_fold; reflexivity. Qed.

(** [list_available_cameras] lists, in increasing order, exactly the
    indices 0 .. 9 at which [initialize_camera] succeeds on a new manager;
    a working device at any other index is never listed, and
    [has_available_cameras] holds exactly when one of 0 .. 9 works. *)
Theorem list_available_cameras_spec (d : Devices) :
  list_available_cameras d =
    filter (fun i => fst (initialize_camera d (new i))) (map Z.of_nat (seq 0 10)) /\
  (forall i, In i (list_available_cameras d) <->
             0 <= i < 10 /\ fst (initialize_camera d (new i)) = true) /\
  (has_available_cameras d = true <->
     exists i, 0 <= i < 10 /\ fst (initialize_camera d (new i)) = true).
Proof.
  assert (Hin : forall i, In i (list_available_cameras d) <->
             0 <= i < 10 /\ fst (initialize_camera d (new i)) = true).
  { intros i; rewrite list_available_cameras_filter, filter_In, in_map_iff.
    split.
    - intros [[n [<- Hn]] Hok]; apply in_seq in Hn; split; [lia|exact Hok].
    - intros [Hr Hok]; split; [|exact Hok].
      exists (Z.to_nat i); split; [lia|apply in_seq; lia]. }
  split; [apply list_available_cameras_filter|split; [exact Hin|]].
  unfold has_available_cameras; rewrite Nat.ltb_lt; split.
  - intros Hlen; destruct (list_available_cameras d) as [|i l] eqn:E; [cbn in Hlen; lia|].
    exists i; apply Hin; left; reflexivity.
  - intros [i Hi]; apply Hin in Hi.
    destruct (list_available_cameras d); [destruct Hi|cbn; lia].
Qed.

(** After [stop_capture] no handle is kept and the camera is not active;
    stopping again changes nothing; and a later [start_capture] always
    opens the device afresh: it starts capturing, with the camera active,
    exactly when [initialize_camera] succeeds, and raises otherwise. *)
Theorem stop_capture_then_restart (d : Devices) (cb : option Callback)
    (s : CameraManager) :
  let s' := stop_capture s in
  cap s' = None /\ is_running s' = false /\ is_camera_active s' = false /\
  stop_capture s' = s' /\
  match start_capture d cb s' with
  | Normal s'' =>
      fst (initialize_camera d s') = true /\ is_camera_active s'' = true /\
      frame_callback s'' = cb
  | RuntimeError _ _ => fst (initialize_camera d s') = false
  end.
Proof.
  cbv zeta.
  assert (Hcap : cap (stop_capture s) = None) by (unfold stop_capture; destruct (cap s); reflexivity).
  split; [exact Hcap|split; [reflexivity|split]].
  - unfold is_camera_active; reflexivity.
  - split; [unfold stop_capture; cbn; destruct (cap s); reflexivity|].
    unfold start_capture, cap_opened; rewrite Hcap; cbn [negb].
    unfold initialize_camera.
    destruct (ctor_raises d (camera_index (stop_capture s))) eqn:E1; [reflexivity|].
    destruct (can_open d (camera_index (stop_capture s))) eqn:E2; cbn [negb vc_opened]; [|reflexivity].
    destruct (test_read_ok d (camera_index (stop_capture s))) eqn:E3; [|reflexivity].
    repeat split.
Qed.

(** [MainWindow.start_camera] with a working camera: when some index
    0 .. 9 works and [initialize_camera] succeeds at the selected index,
    the following [start_capture] does not raise (it finds the device open
    and does not initialize it again), the window marks the camera active
    and the manager is capturing with the window's frame callback. *)
Theorem start_camera_activates (d : Devices) (i : Z) (cb : Callback)
    (active : bool) (s : CameraManager) :
  has_available_cameras d = true ->
  fst (initialize_camera d (set_camera_index i s)) = true ->
  exists s', start_camera d i cb active s = (true, s') /\
    is_camera_active s' = true /\ frame_callback s' = Some cb /\
    camera_index s' = i /\ cap s' = Some (mkVideoCapture i true).
Proof.
  intros Hav Hok; unfold start_camera; rewrite Hav; cbn [negb].
  unfold initialize_camera in *; cbn [camera_index set_camera_index] in *.
  destruct (ctor_raises d i); [discriminate|].
  destruct (can_open d i) eqn:Eo; cbn [negb vc_opened] in *; [|discriminate].
  destruct (test_read_ok d i); [|discriminate].
  eexists; split; [reflexivity|].
  repeat split.
Qed.

Lemma start_camera_activates_witness :
  let d1 := mkDevices (fun _ => false) (fun i => (i =? 1)%Z) (fun i => (i =? 1)%Z) in
  has_available_cameras d1 = true /\
  fst (initialize_camera d1 (set_camera_index 1 (new 0))) = true /\
  exists s', start_camera d1 1 7%nat false (new 0) = (true, s') /\
    is_camera_active s' = true /\ frame_callback s' = Some 7%nat /\
    camera_index s' = 1 /\ cap s' = Some (mkVideoCapture 1 true).
Proof.
  intros d1.
  assert (H1 : has_available_cameras d1 = true) by reflexivity.
  assert (H2 : fst (initialize_camera d1 (set_camera_index 1 (new 0))) = true) by reflexivity.
  split; [exact H1|split; [exact H2|]].
  exact (start_camera_activates d1 1 7%nat false (new 0) H1 H2).
Defined.

Lemma queue_put_lastn (l : list nat) (f : nat) :
  queue_put (lastn 2 l) f = lastn 2 (l ++ [f]).
Proof.
  rewrite <- PerformanceMoreFacts.lastn_lastn_app.
  unfold queue_put.
  assert (Hlen : (List.length (lastn 2 l) <= 2)%nat)
    by (unfold lastn; rewrite length_skipn; lia).
  set (q := lastn 2 l) in *; clearbody q.
  unfold lastn at 1; rewrite length_app; cbn [List.length].
  destruct (2 <=? List.length q)%nat eqn:E.
  - apply Nat.leb_le in E.
    replace (List.length q + 1 - 2)%nat with 1%nat by lia.
    destruct q as [|a q]; [cbn in E; lia|reflexivity].
  - apply Nat.leb_gt in E.
    replace (List.length q + 1 - 2)%nat with 0%nat by lia; reflexivity.
Qed.

Lemma capture_loop_queue_gen its n l dl e q d' :
  capture_loop its n (lastn 2 l) dl = (e, q, d') ->
  (dl <= d')%nat /\ q = lastn 2 (l ++ seq n (d' - dl)).
Proof.
  revert n l dl; induction its as [|it its IH]; intros n l dl; cbn [capture_loop].
  - intros H; inversion H; subst.
    split; [lia|rewrite Nat.sub_diag, app_nil_r; reflexivity].
  - destruct (still_running it); cbn [negb].
    + destruct (read_ok it); cbn [negb].
      * rewrite queue_put_lastn; intros H.
        destruct (IH (S n) (l ++ [n]) (S dl) H) as [Hle Hq].
        split; [lia|rewrite Hq, <- app_assoc].
        replace (d' - dl)%nat with (S (d' - S dl)) by lia; reflexivity.
      * intros H; inversion H; subst.
        split; [lia|rewrite Nat.sub_diag, app_nil_r; reflexivity].
    + intros H; inversion H; subst.
      split; [lia|rewrite Nat.sub_diag, app_nil_r; reflexivity].
Qed.

(** The capture loop keeps in [frame_queue] the last two frames it read;
    [get_latest_frame] then returns the older of the two, one frame behind
    the newest read. *)
Theorem capture_loop_latest_frame its e q k :
  capture_loop its 0 [] 0 = (e, q, k) ->
  q = lastn 2 (seq 0 k) /\
  ((2 <= k)%nat -> get_latest_frame q = (Some (k - 2)%nat, [(k - 1)%nat])) /\
  (k = 1%nat -> get_latest_frame q = (Some 0%nat, [])).
Proof.
  intros H.
  destruct (capture_loop_queue_gen its 0 [] 0 e q k H) as [_ Hq].
  rewrite Nat.sub_0_r in Hq; cbn [app] in Hq.
  split; [exact Hq|split].
  - intros Hk; rewrite Hq; unfold lastn; rewrite length_seq, skipn_seq.
    replace (k - (k - 2))%nat with 2%nat by lia.
    cbn; f_equal; f_equal; lia.
  - intros ->; rewrite Hq; reflexivity.
Qed.

Lemma capture_loop_latest_frame_witness :
  let its := repeat (mkIteration true true false) 5 ++ [mkIteration true false false] in
  capture_loop its 0 [] 0 = (ReadFailed, [3; 4]%nat, 5%nat) /\
  [3; 4]%nat = lastn 2 (seq 0 5) /\
  ((2 <= 5)%nat -> get_latest_frame [3; 4]%nat = (Some (5 - 2)%nat, [(5 - 1)%nat])) /\
  (5%nat = 1%nat -> get_latest_frame [3; 4]%nat = (Some 0%nat, [])).
Proof.
  intros its.
  assert (H : capture_loop its 0 [] 0 = (ReadFailed, [3; 4]%nat, 5%nat)) by reflexivity.
  split; [exact H|exact (capture_loop_latest_frame its ReadFailed [3; 4]%nat 5%nat H)].
Defined.

End CameraMoreFacts.

(* ------------------------------------------------------------------ *)
(** ** More properties of [ROISelector] *)

Module ROIMoreFacts.
Import ROI.

(** Every region the selector reports has a non-negative width and
    height, whatever sequence of mouse events and resets led to it. *)
Theorem reachable_roi_nonnegative (s : ROISelector) (x y w h : Z) :
  reachable s -> roi s = Some (x, y, w, h) -> 0 <= w /\ 0 <= h.
Proof.
  intros Hr; revert x y w h; induction Hr as [|ev ex ey flags s _ IH|s _ IH];
    intros x y w h Hroi.
  - discriminate.
  - unfold mouse_callback in Hroi.
    destruct (ev =? EVENT_LBUTTONDOWN)%Z; [exact (IH _ _ _ _ Hroi)|].
    destruct ((ev =? EVENT_MOUSEMOVE)%Z && selecting s); [exact (IH _ _ _ _ Hroi)|].
    destruct (ev =? EVENT_LBUTTONUP)%Z; [|exact (IH _ _ _ _ Hroi)].
    destruct (start_point s) as [[x1 y1]|]; [|exact (IH _ _ _ _ Hroi)].
    cbn in Hroi; inversion Hroi; lia.
  - discriminate.
Qed.

Lemma reachable_roi_nonnegative_witness :
  let s := drag (30, 40) [(20, 35)] (10, 25) 0 init in
  reachable s /\ roi s = Some (10, 25, 20, 15) /\ 0 <= 20 /\ 0 <= 15.
Proof.
  intros s.
  assert (Hr : reachable s).
  { unfold s, drag; cbn [moves].
    apply reach_event, reach_event, reach_event, reach_init. }
  assert (He : roi s = Some (10, 25, 20, 15)) by reflexivity.
  split; [exact Hr|split; [exact He|exact (reachable_roi_nonnegative s 10 25 20 15 Hr He)]].
Defined.

(** Only a button release can change the reported region; a pointer move
    while no selection is in progress, and any event other than press,
    move and release, leave the selector unchanged. *)
Theorem roi_changes_only_on_release (ev x y flags : Z) (s : ROISelector) :
  ev <> EVENT_LBUTTONUP ->
  roi (mouse_callback ev x y flags s) = roi s /\
  (ev <> EVENT_LBUTTONDOWN -> (ev <> EVENT_MOUSEMOVE \/ selecting s = false) ->
   mouse_callback ev x y flags s = s).
Proof.
  intros Hup; unfold mouse_callback.
  apply Z.eqb_neq in Hup; rewrite Hup.
  destruct (ev =? EVENT_LBUTTONDOWN)%Z eqn:Edown.
  - split; [reflexivity|intros Hd; apply Z.eqb_neq in Hd; congruence].
  - destruct ((ev =? EVENT_MOUSEMOVE)%Z && selecting s) eqn:Emove.
    + split; [reflexivity|intros _ [Hm|Hs]].
      * apply andb_true_iff in Emove as [Em _]; apply Z.eqb_eq in Em; contradiction.
      * apply andb_true_iff in Emove as [_ Es]; congruence.
    + split; reflexivity.
Qed.

Lemma roi_changes_only_on_release_witness :
  EVENT_MOUSEMOVE <> EVENT_LBUTTONUP /\
  roi (mouse_callback EVENT_MOUSEMOVE 3 4 0 init) = roi init /\
  (EVENT_MOUSEMOVE <> EVENT_LBUTTONDOWN ->
   (EVENT_MOUSEMOVE <> EVENT_MOUSEMOVE \/ selecting init = false) ->
   mouse_callback EVENT_MOUSEMOVE 3 4 0 init = init).
Proof.
  assert (H : EVENT_MOUSEMOVE <> EVENT_LBUTTONUP) by discriminate.
  split; [exact H|exact (roi_changes_only_on_release EVENT_MOUSEMOVE 3 4 0 init H)].
Defined.

End ROIMoreFacts.

(* ------------------------------------------------------------------ *)
(** * Facts about the exporter's history and statistics *)

Module ExporterFacts.
Import Detector Exporter.

Lemma existsb_data_in (h : list Item) (d : string) :
  existsb (fun it => String.eqb (it_data it) d) h = true <-> In d (map it_data h).
Proof.
  rewrite existsb_exists. split.
  - intros [it [Hin Heq]]. apply String.eqb_eq in Heq. subst d.
    apply in_map. exact Hin.
  - intros Hin. apply in_map_iff in Hin as [it [Heq Hin]].
    exists it. split; [exact Hin | apply String.eqb_eq; exact Heq].
Qed.

Lemma add_results_shape (rs : list DetectionResult) (h : list Item) :
  exists ds, add_results rs h = h ++ map data_item ds.
Proof.
  unfold add_results. revert h. induction rs as [|r rs IH]; intros h; cbn [fold_left].
  - exists []. rewrite app_nil_r. reflexivity.
  - destruct (existsb _ h).
    + exact (IH h).
    + destruct (IH (h ++ [data_item (data r)])) as [ds Hds]. rewrite Hds.
      exists (data r :: ds). rewrite <- app_assoc. reflexivity.
Qed.

Lemma add_results_payloads (rs : list DetectionResult) (h : list Item) :
  NoDup (map it_data h) ->
  NoDup (map it_data (add_results rs h)) /\
  (forall d, In d (map it_data (add_results rs h)) <->
             In d (map it_data h) \/ In d (map data rs)).
Proof.
  unfold add_results. revert h. induction rs as [|r rs IH]; intros h Hnd; cbn [fold_left].
  - split; [exact Hnd|]. intros d. cbn [map In]. tauto.
  - destruct (existsb _ h) eqn:Ex.
    + apply existsb_data_in in Ex.
      destruct (IH h Hnd) as [Hnd' Hmem]. split; [exact Hnd'|].
      intros d. rewrite Hmem. cbn [map In].
      split; [tauto|]. intros [H|[H|H]]; auto. subst d. auto.
    + assert (Hni : ~ In (data r) (map it_data h)).
      { intros Hin. apply existsb_data_in in Hin. congruence. }
      assert (Hnd2 : NoDup (map it_data (h ++ [data_item (data r)]))).
      { rewrite map_app. apply DetectorFacts.nodup_snoc; assumption. }
      destruct (IH _ Hnd2) as [Hnd' Hmem]. split; [exact Hnd'|].
      intros d. rewrite Hmem, map_app, in_app_iff. cbn [map In it_data data_item].
      split.
      * intros [[H|[H|[]]]|H]; auto.
      * intros [H|[H|H]]; auto.
Qed.

Lemma add_results_present (rs : list DetectionResult) (h : list Item) :
  (forall r, In r rs -> In (data r) (map it_data h)) ->
  add_results rs h = h.
Proof.
  unfold add_results. revert h. induction rs as [|r rs IH]; intros h Hall; cbn [fold_left].
  - reflexivity.
  - assert (Ex : existsb (fun it => String.eqb (it_data it) (data r)) h = true).
    { apply existsb_data_in. apply Hall. left. reflexivity. }
    rewrite Ex. apply IH. intros r' Hr'. apply Hall. right. exact Hr'.
Qed.

Lemma exporter_run_items (h : list Item) :
  exporter_run h -> h = map data_item (map it_data h).
Proof.
  induction 1 as [|rs h _ IH|h _ _].
  - reflexivity.
  - destruct (add_results_shape rs h) as [ds Hds]. rewrite Hds.
    assert (Hd : map it_data (map data_item ds) = ds).
    { rewrite map_map. cbn [it_data data_item]. apply map_id. }
    rewrite !map_app, Hd, <- IH. reflexivity.
  - reflexivity.
Qed.

Lemma map_items_const {B} (g : Item -> B) (d0 : string) (ds : list string) :
  (forall d, g (data_item d) = g (data_item EmptyString)) ->
  map g (data_item d0 :: map data_item ds)
  = repeat (g (data_item EmptyString)) (S (List.length ds)).
Proof.
  intros Hg. cbn [map repeat]. rewrite Hg. f_equal.
  induction ds as [|d ds IH]; cbn [map repeat List.length]; [reflexivity|].
  rewrite Hg, IH. reflexivity.
Qed.

Lemma py_set_repeat_empty (k : nat) :
  py_set (repeat EmptyString (S k)) = [EmptyString].
Proof.
  unfold py_set. cbn [repeat fold_left existsb app].
  induction k as [|k IH]; [reflexivity|]. cbn [repeat fold_left]. exact IH.
Qed.

Lemma type_counts_repeat_empty (k : nat) :
  fold_left (fun tc t => dict_set t (dict_get t 0 tc + 1) tc)
    (repeat EmptyString (S k)) [] = [(EmptyString, Z.of_nat (S k))].
Proof.
  cbn [repeat fold_left].
  change (dict_set EmptyString (dict_get EmptyString 0 [] + 1) [])
    with [(EmptyString, Z.of_nat 1)].
  assert (G : forall m, fold_left (fun tc t => dict_set t (dict_get t 0 tc + 1) tc)
                (repeat EmptyString k) [(EmptyString, Z.of_nat m)]
              = [(EmptyString, Z.of_nat (m + k))]).
  { induction k as [|k IH]; intros m; cbn [repeat fold_left].
    - rewrite Nat.add_0_r. reflexivity.
    - cbn [dict_get dict_set String.eqb].
      replace (Z.of_nat m + 1) with (Z.of_nat (S m)) by lia.
      rewrite IH. do 3 f_equal. lia. }
  rewrite G. reflexivity.
Qed.

Lemma sum_repeat_zero (k : nat) : fold_right Qplus 0%Q (repeat 0%Q k) = 0%Q.
Proof.
  induction k as [|k IH]; cbn [repeat fold_right]; [reflexivity|].
  rewrite IH. reflexivity.
Qed.

Lemma qmin_repeat_zero (k : nat) : fold_left Qmin (repeat 0%Q k) 0%Q = 0%Q.
Proof. induction k as [|k IH]; cbn [repeat fold_left]; [reflexivity|]. exact IH. Qed.

Lemma qmax_repeat_zero (k : nat) : fold_left Qmax (repeat 0%Q k) 0%Q = 0%Q.
Proof. induction k as [|k IH]; cbn [repeat fold_left]; [reflexivity|]. exact IH. Qed.

Lemma filter_truthy_repeat_empty (k : nat) :
  filter truthy (repeat EmptyString k) = [].
Proof. induction k as [|k IH]; cbn [repeat filter]; [reflexivity|]. exact IH. Qed.

Lemma qred_zero_div (k : nat) :
  Qred (0 / inject_Z (Z.of_nat (S k)))%Q = 0%Q.
Proof. reflexivity. Qed.

Lemma add_results_members (rs : list DetectionResult) (h : list Item) (d : string) :
  In d (map it_data (add_results rs h)) <->
  In d (map it_data h) \/ In d (map data rs).
Proof.
  unfold add_results. revert h. induction rs as [|r rs IH]; intros h; cbn [fold_left].
  - cbn [map In]. tauto.
  - destruct (existsb _ h) eqn:Ex.
    + apply existsb_data_in in Ex. rewrite IH. cbn [map In].
      split; [tauto|]. intros [H|[H|H]]; auto. subst d. auto.
    + rewrite IH, map_app, in_app_iff. cbn [map In it_data data_item].
      split.
      * intros [[H|[H|[]]]|H]; auto.
      * intros [H|[H|H]]; auto.
Qed.

Lemma dict_get_set_other {V} (k key : string) (v dflt : V) (d : list (string * V)) :
  k <> key -> dict_get key dflt (dict_set k v d) = dict_get key dflt d.
Proof.
  intros Hk. induction d as [|[k' v'] d IH]; cbn [dict_set dict_get].
  - destruct (String.eqb_spec k key); [contradiction|reflexivity].
  - destruct (String.eqb_spec k' k) as [E|E]; cbn [dict_get].
    + subst k'. destruct (String.eqb_spec k key); [contradiction|reflexivity].
    + rewrite IH. reflexivity.
Qed.

Lemma fold_count_keys_keep (key : string) (dflt : SVal) (l : list (string * Z))
  (st : list (string * SVal)) :
  (forall t, (t ++ " Count")%string <> key) ->
  dict_get key dflt
    (fold_left (fun st p => dict_set (fst p ++ " Count")%string (SInt (snd p)) st) l st)
  = dict_get key dflt st.
Proof.
  intros Hk. revert st. induction l as [|p l IH]; intros st; cbn [fold_left].
  - reflexivity.
  - rewrite IH. apply dict_get_set_other. apply Hk.
Qed.

Lemma count_key_not_total (t : string) :
  (t ++ " Count")%string <> "Total Detections".
Proof.
  intros H.
  assert (Hl : String.length t = 10%nat).
  { apply (f_equal String.length) in H.
    rewrite DetectorMoreFacts.string_length_append in H. cbn in H. lia. }
  do 10 (destruct t as [|? t]; [discriminate Hl|]).
  destruct t; [|discriminate Hl].
  cbn in H. congruence.
Qed.

Lemma stats_of_data_items (format3 : Q -> string) (d0 : string) (ds : list string) :
  get_statistics format3 (map data_item (d0 :: ds)) =
  let n := SInt (Z.of_nat (S (List.length ds))) in
  [("Total Detections", n);
   ("Unique Sources", SInt 1);
   ("Code Types Detected", SInt 1);
   ("Average Confidence", SStr (format3 0%Q));
   ("Average Detection Time", SStr (format3 0%Q ++ "s")%string);
   ("Min Detection Time", SStr (format3 0%Q ++ "s")%string);
   ("Max Detection Time", SStr (format3 0%Q ++ "s")%string);
   ("Most Common Type", SStr EmptyString);
   ("Date Range", SStr "N/A");
   (" Count", n)].
Proof.
  change (map data_item (d0 :: ds)) with (data_item d0 :: map data_item ds).
  unfold get_statistics, generate_summary_stats. cbv beta iota zeta.
  rewrite !(map_items_const _ d0 ds) by (intros; reflexivity).
  cbn [data_item it_confidence it_detection_time it_source it_type it_timestamp].
  rewrite !py_set_repeat_empty, type_counts_repeat_empty, !sum_repeat_zero,
    filter_truthy_repeat_empty.
  cbn [tl hd repeat]. rewrite qmin_repeat_zero, qmax_repeat_zero.
  cbn [List.length]. rewrite length_map, !qred_zero_div.
  reflexivity.
Qed.

(** [add_results] appends [{'data': d}] entries only, never changes or drops
    what the history holds, keeps the payloads pairwise distinct, and the
    payloads after the call are exactly those before plus those of the
    results. *)
Theorem add_results_unique_payloads (rs : list DetectionResult) (h : list Item) :
  NoDup (map it_data h) ->
  NoDup (map it_data (add_results rs h)) /\
  (exists ds, add_results rs h = h ++ map data_item ds) /\
  (forall d, In d (map it_data (add_results rs h)) <->
             In d (map it_data h) \/ In d (map data rs)).
Proof.
  intros Hnd. destruct (add_results_payloads rs h Hnd) as [Hnd' Hmem].
  split; [exact Hnd'|]. split; [apply add_results_shape|exact Hmem].
Qed.

Definition result_a : DetectionResult :=
  mkDetectionResult "A" "QR" (0, 0, 1, 1) [] 1 0.
Definition result_b : DetectionResult :=
  mkDetectionResult "B" "QR" (0, 0, 1, 1) [] 1 0.

Lemma add_results_unique_payloads_witness :
  NoDup (map it_data [data_item "A"]) /\
  NoDup (map it_data (add_results [result_a; result_b; result_a] [data_item "A"])) /\
  (exists ds, add_results [result_a; result_b; result_a] [data_item "A"]
              = [data_item "A"] ++ map data_item ds) /\
  (forall d, In d (map it_data (add_results [result_a; result_b; result_a] [data_item "A"])) <->
             In d (map it_data [data_item "A"]) \/ In d (map data [result_a; result_b; result_a])).
Proof.
  assert (H : NoDup (map it_data [data_item "A"])).
  { cbn. constructor; [intros []|constructor]. }
  split; [exact H|].
  exact (add_results_unique_payloads [result_a; result_b; result_a] [data_item "A"] H).
Defined.

(** Adding the same results a second time leaves the history as it is. *)
Theorem add_results_idempotent (rs : list DetectionResult) (h : list Item) :
  add_results rs (add_results rs h) = add_results rs h.
Proof.
  apply add_results_present. intros r Hr.
  apply add_results_members. right. apply in_map. exact Hr.
Qed.

(** The history of a running exporter holds only [{'data': d}] entries, so
    [get_statistics] reports, for a non-empty history of [n] entries, the
    same summary whatever the payloads are: [n] detections, one source and
    one type (both the missing-key default [''], counted [n] times under
    the key [' Count']), all averages and extremes formatted from 0, and no
    date range. *)
Theorem exporter_statistics_degenerate (format3 : Q -> string) (h : list Item) :
  exporter_run h -> h <> [] ->
  get_statistics format3 h =
  let n := SInt (Z.of_nat (List.length h)) in
  [("Total Detections", n);
   ("Unique Sources", SInt 1);
   ("Code Types Detected", SInt 1);
   ("Average Confidence", SStr (format3 0%Q));
   ("Average Detection Time", SStr (format3 0%Q ++ "s")%string);
   ("Min Detection Time", SStr (format3 0%Q ++ "s")%string);
   ("Max Detection Time", SStr (format3 0%Q ++ "s")%string);
   ("Most Common Type", SStr EmptyString);
   ("Date Range", SStr "N/A");
   (" Count", n)].
Proof.
  intros Hrun Hne.
  assert (Hh := exporter_run_items h Hrun).
  assert (Hlen : List.length h = List.length (map it_data h)) by (rewrite length_map; reflexivity).
  rewrite Hlen. rewrite Hh at 1.
  destruct (map it_data h) as [|d0 ds] eqn:Ed.
  - exfalso. apply Hne. apply map_eq_nil in Ed. exact Ed.
  - apply stats_of_data_items.
Qed.

Definition format3_demo (q : Q) : string :=
  if Qeq_bool q 0 then "0.000" else "?".

Lemma exporter_statistics_degenerate_witness :
  let h := add_results [result_a; result_b] (add_results [result_a] []) in
  exporter_run h /\ h <> [] /\
  get_statistics format3_demo h =
  [("Total Detections", SInt 2);
   ("Unique Sources", SInt 1);
   ("Code Types Detected", SInt 1);
   ("Average Confidence", SStr "0.000");
   ("Average Detection Time", SStr "0.000s");
   ("Min Detection Time", SStr "0.000s");
   ("Max Detection Time", SStr "0.000s");
   ("Most Common Type", SStr EmptyString);
   ("Date Range", SStr "N/A");
   (" Count", SInt 2)].
Proof.
  cbv zeta.
  assert (Hrun : exporter_run (add_results [result_a; result_b] (add_results [result_a] [])))
    by (apply exp_add, exp_add, exp_init).
  assert (Hne : add_results [result_a; result_b] (add_results [result_a] []) <> [])
    by (vm_compute; discriminate).
  split; [exact Hrun|]. split; [exact Hne|].
  rewrite (exporter_statistics_degenerate format3_demo _ Hrun Hne).
  vm_compute. reflexivity.
Defined.

(** The status panel shows [stats.get('Total Detections', 0)] from
    [get_statistics]: it is the length of the history for every history,
    the empty one included, whatever its entries hold, since no
    [f'{code_type} Count'] key can be ['Total Detections']. *)
Theorem system_info_total_detections (format3 : Q -> string) (h : list Item) :
  dict_get "Total Detections" (SInt 0) (get_statistics format3 h)
  = SInt (Z.of_nat (List.length h)).
Proof.
  destruct h as [|i h]; [reflexivity|].
  unfold get_statistics, generate_summary_stats. cbv beta iota zeta.
  rewrite fold_count_keys_keep by apply count_key_not_total.
  reflexivity.
Qed.

End ExporterFacts.
